(** * Visitor analytics of the résumé site: recorder and statistics page

    A shallow embedding of the visitor-analytics code of the portfolio site
    (the [logVisitorInfo] callback of the CV component with its helpers
    [detectBrowser] and [detectOS], and the [calculateStats], [fetchLogs] and
    [getPercentChange] functions of the statistics page), followed by the
    properties proved about it.

    Conventions of the embedding:
    - JavaScript strings are [string]; objects used as dictionaries
      ([{ [key: string]: number }]) are the lists of their own properties,
      in the order of [Object.entries], read and written through
      [Object.prototype]; counters and array lengths are [nat];
    - a [Date] is its time value: milliseconds since the epoch in [Z], or
      [None] for an invalid date (time value NaN);
    - what the host supplies (time zone rules, [Date.parse], the network, the
      hosted store) is an explicit argument: a [Runtime] record or a script
      of outcomes;
    - [async] functions are run to completion; their effects on React state,
      on the console and on the store are threaded through a small
      state-and-exception monad. *)

From Stdlib Require Import ZArith Lia Bool List String Ascii Floats Uint63.
From Stdlib Require Import Sorting.Sorted.
From stdpp Require Import strings list pretty.

Local Open Scope string_scope.

(** ** JavaScript strings *)

Module JSString.

(** [s.includes(pat)]: does [pat] occur in [s] as a contiguous substring?
    The search tries every start position from left to right. *)
Fixpoint includes (s pat : string) : bool :=
  if String.prefix pat s then true
  else match s with
       | EmptyString => false
       | String _ rest => includes rest pat
       end.

End JSString.

(** ** JavaScript dates (ECMA-262, Date objects)

    The abstract operations of the language standard that the statistics
    page reaches through [new Date(y, m, d)], [getFullYear], [getMonth],
    [getDate], [getTime], [setDate] and [new Date(string)]. *)

Module JSDate.

Local Open Scope Z_scope.

Definition msPerDay : Z := 86400000.

(** Time values range over ±8.64e15 ms; [TimeClip] turns anything else into
    NaN. *)
Definition maxTimeValue : Z := 8640000000000000.

Definition Day (t : Z) : Z := t / msPerDay.
Definition TimeWithinDay (t : Z) : Z := t mod msPerDay.

Definition DaysInYear (y : Z) : Z :=
  if negb (y mod 4 =? 0) then 365
  else if negb (y mod 100 =? 0) then 366
  else if negb (y mod 400 =? 0) then 365
  else 366.

Definition DayFromYear (y : Z) : Z :=
  365 * (y - 1970) + (y - 1969) / 4 - (y - 1901) / 100 + (y - 1601) / 400.

Definition TimeFromYear (y : Z) : Z := msPerDay * DayFromYear y.

(** The largest [y] with [TimeFromYear y <= t], computed from an estimate
    that is off by at most one year ([YearFromTime_spec] below). *)
Definition YearFromTime (t : Z) : Z :=
  let d := Day t in
  let y := 1970 + (d * 400) / 146097 in
  if d <? DayFromYear y then y - 1
  else if DayFromYear (y + 1) <=? d then y + 1
  else y.

Definition InLeapYear (t : Z) : Z :=
  if DaysInYear (YearFromTime t) =? 366 then 1 else 0.

Definition DayWithinYear (t : Z) : Z := Day t - DayFromYear (YearFromTime t).

(** Month number, 0 for January to 11 for December. *)
Definition MonthFromTime (t : Z) : Z :=
  let d := DayWithinYear t in
  let leap := InLeapYear t in
  if d <? 31 then 0
  else if d <? 59 + leap then 1
  else if d <? 90 + leap then 2
  else if d <? 120 + leap then 3
  else if d <? 151 + leap then 4
  else if d <? 181 + leap then 5
  else if d <? 212 + leap then 6
  else if d <? 243 + leap then 7
  else if d <? 273 + leap then 8
  else if d <? 304 + leap then 9
  else if d <? 334 + leap then 10
  else 11.

(** Day of the month, 1 to 31. *)
Definition DateFromTime (t : Z) : Z :=
  let d := DayWithinYear t in
  let leap := InLeapYear t in
  match MonthFromTime t with
  | 0 => d + 1
  | 1 => d - 30
  | 2 => d - 58 - leap
  | 3 => d - 89 - leap
  | 4 => d - 119 - leap
  | 5 => d - 150 - leap
  | 6 => d - 180 - leap
  | 7 => d - 211 - leap
  | 8 => d - 242 - leap
  | 9 => d - 272 - leap
  | 10 => d - 303 - leap
  | _ => d - 333 - leap
  end.

(** Number of days of the year that precede the first of month [mn]. *)
Definition daysBeforeMonth (mn leap : Z) : Z :=
  match mn with
  | 0 => 0
  | 1 => 31
  | 2 => 59 + leap
  | 3 => 90 + leap
  | 4 => 120 + leap
  | 5 => 151 + leap
  | 6 => 181 + leap
  | 7 => 212 + leap
  | 8 => 243 + leap
  | 9 => 273 + leap
  | 10 => 304 + leap
  | _ => 334 + leap
  end.

(** [MakeDay(year, month, date)] on integers: the day number of the first of
    the month, plus [date - 1]; months outside 0..11 carry into the year. *)
Definition MakeDay (year month date : Z) : Z :=
  let ym := year + month / 12 in
  let mn := month mod 12 in
  let leap := if DaysInYear ym =? 366 then 1 else 0 in
  DayFromYear ym + daysBeforeMonth mn leap + date - 1.

Definition MakeTime (hour min sec ms : Z) : Z :=
  hour * 3600000 + min * 60000 + sec * 1000 + ms.

Definition MakeDate (day time : Z) : Z := day * msPerDay + time.

Definition TimeClip (t : Z) : option Z :=
  if maxTimeValue <? Z.abs t then None else Some t.

(** What the host decides: the offset of local time from UTC, in
    milliseconds, at a UTC instant ([LocalTZA t true]) or at a local time
    ([LocalTZA t false]); and the grammar of [Date.parse] ([None] is NaN). *)
Record Runtime := {
  LocalTZA : Z -> bool -> Z;
  DateParse : string -> option Z
}.

Section WithRuntime.

Variable rt : Runtime.

Definition LocalTime (t : Z) : Z := t + LocalTZA rt t true.
Definition UTC (t : Z) : Z := t - LocalTZA rt t false.

(** A [Date] object is its time value; [None] is an invalid date. *)
Definition Date := option Z.

Definition getTime (d : Date) : option Z := d.

Definition getFullYear (d : Date) : option Z :=
  t ← d; Some (YearFromTime (LocalTime t)).

Definition getMonth (d : Date) : option Z :=
  t ← d; Some (MonthFromTime (LocalTime t)).

Definition getDate (d : Date) : option Z :=
  t ← d; Some (DateFromTime (LocalTime t)).

(** [new Date(year, month, date)]: local time, with years 0..99 read as
    1900..1999. *)
Definition newDateYMD (year month date : option Z) : Date :=
  y ← year; m ← month; dt ← date;
  let yr := if (0 <=? y) && (y <=? 99) then 1900 + y else y in
  TimeClip (UTC (MakeDate (MakeDay yr m dt) (MakeTime 0 0 0 0))).

(** [new Date(value)] for a number. *)
Definition newDateOfNumber (value : option Z) : Date :=
  t ← value; TimeClip t.

(** [new Date(d)] for a [Date] object [d]: a copy. *)
Definition newDateCopy (d : Date) : Date := d.

(** [new Date(s)] for a string. *)
Definition newDateOfString (s : string) : Date :=
  t ← DateParse rt s; TimeClip t.

(** [d.setDate(date)], returning the new time value of [d]. *)
Definition setDate (d : Date) (date : option Z) : Date :=
  t0 ← d; dt ← date;
  let t := LocalTime t0 in
  let newDate :=
    MakeDate (MakeDay (YearFromTime t) (MonthFromTime t) dt) (TimeWithinDay t) in
  TimeClip (UTC newDate).

(** [a >= b] on dates: both become numbers; false when either is NaN. *)
Definition date_ge (a b : Date) : bool :=
  match a, b with
  | Some x, Some y => y <=? x
  | _, _ => false
  end.

End WithRuntime.

(** [d.toISOString()] for a valid date: [YYYY-MM-DDTHH:mm:ss.sssZ] in UTC,
    the year in the expanded form [±YYYYYY] outside 0..9999. *)
Definition padded (width : nat) (n : Z) : string :=
  let digits := pretty (Z.to_N n) in
  String.concat "" (replicate (width - String.length digits) "0"%string)
    +:+ digits.

Definition toISOString (t : Z) : string :=
  let y := YearFromTime t in
  let year :=
    if (0 <=? y) && (y <=? 9999) then padded 4 y
    else (if y <? 0 then "-" else "+") +:+ padded 6 (Z.abs y) in
  year +:+ "-" +:+ padded 2 (MonthFromTime t + 1)
       +:+ "-" +:+ padded 2 (DateFromTime t)
       +:+ "T" +:+ padded 2 ((t / 3600000) mod 24)
       +:+ ":" +:+ padded 2 ((t / 60000) mod 60)
       +:+ ":" +:+ padded 2 ((t / 1000) mod 60)
       +:+ "." +:+ padded 3 (t mod 1000)
       +:+ "Z".

(** *** Hosts used in the examples

    [Date.parse] restricted to the format that [toISOString] writes (every
    other string is NaN here; real hosts accept more), and two time zones:
    a fixed offset, and US Eastern time with its two transitions of 2026. *)

Definition digitValue (c : ascii) : option Z :=
  let n := Z.of_nat (nat_of_ascii c) in
  if (48 <=? n) && (n <=? 57) then Some (n - 48) else None.

Fixpoint digitsValue (s : string) (acc : Z) : option Z :=
  match s with
  | EmptyString => Some acc
  | String c rest => d ← digitValue c; digitsValue rest (10 * acc + d)
  end.

Definition field (s : string) (start len : nat) : option Z :=
  digitsValue (String.substring start len s) 0.

Definition separators (s : string) : bool :=
  bool_decide (String.substring 4 1 s = "-"%string
            ∧ String.substring 7 1 s = "-"%string
            ∧ String.substring 10 1 s = "T"%string
            ∧ String.substring 13 1 s = ":"%string
            ∧ String.substring 16 1 s = ":"%string
            ∧ String.substring 19 1 s = "."%string
            ∧ String.substring 23 1 s = "Z"%string).

Definition parseISO (s : string) : option Z :=
  if negb ((String.length s =? 24)%nat && separators s) then None
  else
    y ← field s 0 4; mo ← field s 5 2; d ← field s 8 2;
    h ← field s 11 2; mi ← field s 14 2; sec ← field s 17 2;
    ms ← field s 20 3;
    if (1 <=? mo) && (mo <=? 12) && (1 <=? d) && (d <=? 31)
       && (h <=? 23) && (mi <=? 59) && (sec <=? 59)
    then Some (MakeDate (MakeDay y (mo - 1) d) (MakeTime h mi sec ms))
    else None.

Definition fixedOffsetHost (offset : Z) : Runtime :=
  {| LocalTZA := fun _ _ => offset; DateParse := parseISO |}.

Definition utcHost : Runtime := fixedOffsetHost 0.

(** US Eastern time in 2026: UTC-5, and UTC-4 from 8 March 07:00 UTC to
    1 November 06:00 UTC. A local time that is skipped or repeated at a
    transition is read with the offset in force before the transition. *)
Definition easternDstStart : Z := 1772953200000.
Definition easternDstEnd : Z := 1793512800000.

Definition easternOffset (t : Z) (isUTC : bool) : Z :=
  let t_utc := if isUTC then t else t + 4 * 3600000 in
  if (easternDstStart <=? t_utc) && (t_utc <? easternDstEnd)
  then - (4 * 3600000) else - (5 * 3600000).

Definition easternHost : Runtime :=
  {| LocalTZA := easternOffset; DateParse := parseISO |}.

(** The reading of "local midnight of the instant [now]": the UTC instant at
    which the local calendar day of [now] begins. *)
Definition localMidnight (rt : Runtime) (now : Z) : Z :=
  UTC rt (msPerDay * Day (LocalTime rt now)).

End JSDate.

(** ** Effects: state, exceptions, console

    An [async] function run to completion is a state transformer that either
    returns a value or throws. [try]/[catch]/[finally] are combinators. *)

Module Eff.

(** A thrown value: whether it is an [Error] instance, its [name] and its
    [message]. *)
Record Thrown := { isError : bool; name : string; message : string }.

Inductive Res (A : Type) :=
| Returns (a : A)
| Throws (e : Thrown).
Arguments Returns {A} a.
Arguments Throws {A} e.

Definition M (S A : Type) : Type := S -> Res A * S.

Definition ret {S A} (a : A) : M S A := fun s => (Returns a, s).

Definition bind {S A B} (m : M S A) (k : A -> M S B) : M S B :=
  fun s =>
    match m s with
    | (Returns a, s') => k a s'
    | (Throws e, s') => (Throws e, s')
    end.

Definition throw {S A} (e : Thrown) : M S A := fun s => (Throws e, s).

Definition modify {S} (f : S -> S) : M S unit := fun s => (Returns tt, f s).

(** [try { m } catch (e) { h e }] *)
Definition try_catch {S A} (m : M S A) (h : Thrown -> M S A) : M S A :=
  fun s =>
    match m s with
    | (Returns a, s') => (Returns a, s')
    | (Throws e, s') => h e s'
    end.

(** [try { m } finally { f }]: [f] always runs; when it completes normally
    the outcome of [m] stands. *)
Definition try_finally {S A} (m : M S A) (f : M S unit) : M S A :=
  fun s =>
    match m s with
    | (r, s') =>
        match f s' with
        | (Returns _, s'') => (r, s'')
        | (Throws e, s'') => (Throws e, s'')
        end
    end.

Inductive ConsoleEntry :=
| ConsoleLog (text : string)
| ConsoleError (text : string).

End Eff.

Declare Scope eff_scope.
Delimit Scope eff_scope with eff.
Notation "x <- m ;; k" := (Eff.bind m (fun x => k))
  (at level 20, m at level 99, k at level 200, only parsing) : eff_scope.
Notation "m ;; k" := (Eff.bind m (fun _ => k))
  (at level 100, k at level 200, right associativity, only parsing) : eff_scope.

(** ** The CV component: device classification and [logVisitorInfo] *)

Module Recorder.

Import JSString.

(** [detectBrowser] of the CV component: an ordered chain of substring
    tests, the first hit decides. *)
Definition detectBrowser (userAgent : string) : string :=
  if includes userAgent "Firefox" then "Firefox"
  else if includes userAgent "Chrome" then "Chrome"
  else if includes userAgent "Safari" then "Safari"
  else if includes userAgent "Edge" then "Edge"
  else if includes userAgent "Opera" then "Opera"
  else "Unknown".

(** [detectOS] of the CV component. *)
Definition detectOS (userAgent : string) : string :=
  if includes userAgent "Windows" then "Windows"
  else if includes userAgent "Mac" then "macOS"
  else if includes userAgent "Linux" then "Linux"
  else if includes userAgent "Android" then "Android"
  else if includes userAgent "iOS" then "iOS"
  else "Unknown".

(** The substrings tested by each chain, in the order of the tests. *)
Definition browserPatterns : list string :=
  ["Firefox"; "Chrome"; "Safari"; "Edge"; "Opera"].

Definition osPatterns : list string :=
  ["Windows"; "Mac"; "Linux"; "Android"; "iOS"].

(** The vocabularies of the data model. *)
Definition browserVocabulary : list string :=
  ["Firefox"; "Chrome"; "Safari"; "Edge"; "Opera"; "Unknown"].

Definition osVocabulary : list string :=
  ["Windows"; "macOS"; "Linux"; "Android"; "iOS"; "Unknown"].

(** The record that the CV component writes. [ip] is whatever the [ip]
    property of the lookup's JSON body holds: a string, or [None] for
    [undefined]. *)
Record VisitorLog := {
  ip : option string;
  timestamp : string;
  os : string;
  browser : string
}.

(** *** The environment of one call

    The address lookup and the hosted store answer as the script says. *)

Inductive JsonBody :=
| BodyNull                        (* the body is the JSON value [null] *)
| BodyWithIp (address : string)   (* an object with a string [ip] *)
| BodyWithoutIp.                  (* any other value: [.ip] is undefined *)

Inductive JsonOutcome :=
| JsonResolves (body : JsonBody)
| JsonRejects (e : Eff.Thrown).

Inductive FetchOutcome :=
| FetchRejects (e : Eff.Thrown)
| FetchResolves (ok : bool) (json : JsonOutcome).

(** One [insert([record]).select()] round trip: the store accepts the row,
    answers with an [error], or the call itself throws. *)
Inductive InsertOutcome :=
| InsertAccepted
| InsertRefused (error : Eff.Thrown)
| InsertThrows (e : Eff.Thrown).

Record Env := {
  userAgent : string;               (* window.navigator.userAgent *)
  clock : Z;                        (* the instant read by [new Date()] *)
  fetchIp : FetchOutcome;           (* fetch('https://api.ipify.org?format=json') *)
  insertOutcome : nat -> InsertOutcome
    (* the answer to the insert issued after [n] earlier ones *)
}.

(** The abort of the lookup after 5000 ms surfaces as a rejection of
    [fetch] with this value. *)
Definition abortError : Eff.Thrown :=
  {| Eff.isError := true; Eff.name := "AbortError";
     Eff.message := "The operation was aborted." |}.

Definition typeError (msg : string) : Eff.Thrown :=
  {| Eff.isError := true; Eff.name := "TypeError"; Eff.message := msg |}.

Definition newError (msg : string) : Eff.Thrown :=
  {| Eff.isError := true; Eff.name := "Error"; Eff.message := msg |}.

(** What a call can change: the [isLoading] React state, the console, the
    [visitor_logs] table, and counters of the inserts issued and of the
    1000 ms pauses taken. *)
Record World := {
  isLoading : bool;
  console : list Eff.ConsoleEntry;
  visitor_logs : list VisitorLog;
  inserts : nat;
  pauses : nat
}.

Section WithEnv.

Variable env : Env.

Local Open Scope eff_scope.

Definition setIsLoading (b : bool) : Eff.M World unit :=
  Eff.modify (fun w =>
    {| isLoading := b; console := console w; visitor_logs := visitor_logs w;
       inserts := inserts w; pauses := pauses w |}).

Definition console_log (text : string) : Eff.M World unit :=
  Eff.modify (fun w =>
    {| isLoading := isLoading w;
       console := (console w ++ [Eff.ConsoleLog text])%list;
       visitor_logs := visitor_logs w;
       inserts := inserts w; pauses := pauses w |}).

Definition console_error (text : string) : Eff.M World unit :=
  Eff.modify (fun w =>
    {| isLoading := isLoading w;
       console := (console w ++ [Eff.ConsoleError text])%list;
       visitor_logs := visitor_logs w;
       inserts := inserts w; pauses := pauses w |}).

(** [await new Promise(resolve => setTimeout(resolve, 1000))] *)
Definition pause : Eff.M World unit :=
  Eff.modify (fun w =>
    {| isLoading := isLoading w; console := console w;
       visitor_logs := visitor_logs w;
       inserts := inserts w; pauses := S (pauses w) |}).

(** [await supabase.from('visitor_logs').insert([record]).select()]: the
    [error] of the answer, [None] when the row was stored. *)
Definition insert (record : VisitorLog) : Eff.M World (option Eff.Thrown) :=
  fun w =>
    let issued w' rows :=
      {| isLoading := isLoading w'; console := console w';
         visitor_logs := rows;
         inserts := S (inserts w'); pauses := pauses w' |} in
    match insertOutcome env (inserts w) with
    | InsertAccepted => (Eff.Returns None, issued w (visitor_logs w ++ [record])%list)
    | InsertRefused error => (Eff.Returns (Some error), issued w (visitor_logs w))
    | InsertThrows e => (Eff.Throws e, issued w (visitor_logs w))
    end.

Inductive LoopStep := Break | Continue.

(** The retry loop, [let retries = 3; while (retries > 0) { ... }], from a
    given value of [retries]. An iteration either leaves the loop ([break]
    after a stored row) or decrements [retries] in its [catch]. *)
Fixpoint storeWithRetries (retries : nat) (record : VisitorLog)
  : Eff.M World unit :=
  match retries with
  | O => Eff.ret tt
  | S retries' =>
      step <- Eff.try_catch
                (error <- insert record ;;
                 match error with
                 | Some e => Eff.throw e
                 | None =>
                     console_log "Successfully logged visitor:" ;;
                     Eff.ret Break
                 end)
                (fun error =>
                   (if (retries' =? 0)%nat
                    then console_error
                           "Failed to store visitor info after all retries:"
                    else Eff.ret tt) ;;
                   pause ;;
                   Eff.ret Continue) ;;
      match step with
      | Break => Eff.ret tt
      | Continue => storeWithRetries retries' record
      end
  end.

(** [await fetch(...)], with the abort timer of 5000 ms folded into the
    outcome. *)
Definition fetchIpify : Eff.M World (bool * JsonOutcome) :=
  match fetchIp env with
  | FetchRejects e => Eff.throw e
  | FetchResolves ok json => Eff.ret (ok, json)
  end.

(** [await ipResponse.json()] followed by [ipData.ip]. *)
Definition readIp (json : JsonOutcome) : Eff.M World (option string) :=
  match json with
  | JsonRejects e => Eff.throw e
  | JsonResolves BodyNull =>
      Eff.throw (typeError "Cannot read properties of null (reading 'ip')")
  | JsonResolves (BodyWithIp address) => Eff.ret (Some address)
  | JsonResolves BodyWithoutIp => Eff.ret None
  end.

(** The [try] block of [logVisitorInfo]. *)
Definition lookupAndStore : Eff.M World unit :=
  response <- fetchIpify ;;
  (if negb (fst response) then Eff.throw (newError "Failed to fetch IP")
   else Eff.ret tt) ;;
  ip <- readIp (snd response) ;;
  let browser := detectBrowser (userAgent env) in
  let os := detectOS (userAgent env) in
  let visitorLog :=
    {| ip := ip;
       timestamp := JSDate.toISOString (clock env);
       os := os;
       browser := browser |} in
  storeWithRetries 3 visitorLog.

(** Its [catch] block. *)
Definition reportFailure (error : Eff.Thrown) : Eff.M World unit :=
  if Eff.isError error && bool_decide (Eff.name error = "AbortError")
  then console_log "Request timed out"
  else console_error "Failed to log visitor info:".

(** [logVisitorInfo]. The guard reads the [isLoading] that the callback
    closed over when it was created (the argument [isLoadingSeen]); the
    setter writes the component's state. *)
Definition logVisitorInfo (isLoadingSeen : bool) : Eff.M World unit :=
  if isLoadingSeen then Eff.ret tt
  else
    setIsLoading true ;;
    Eff.try_finally
      (Eff.try_catch lookupAndStore reportFailure)
      (setIsLoading false).

End WithEnv.

(** The state in which the component mounts. *)
Definition initialWorld : World :=
  {| isLoading := false; console := []; visitor_logs := [];
     inserts := 0; pauses := 0 |}.

End Recorder.

(** ** The CV component: the effect that calls [logVisitorInfo]

    [logVisitorInfo] is [useCallback(..., [isLoading])]: a render gets a new
    function exactly when [isLoading] differs from the previous render, and
    that function sees the [isLoading] of its render. The effect
    [useEffect(() => { logVisitorInfo() }, [logVisitorInfo])] runs after the
    first render and after every render that got a new function. *)

Module CvPage.

Import Recorder.

Record Page := {
  world : World;
  captured : option bool;
    (* the [isLoading] of the last render, which the current
       [logVisitorInfo] closed over; [None] before the first render *)
  inFlight : option Env
    (* a call that has passed its guard and waits for the lookup, with the
       answers it will get *)
}.

(** The component mounts in the world [w]. *)
Definition mount (w : World) : Page :=
  {| world := w; captured := None; inFlight := None |}.

(** A render, followed by the effect when it has to run. The call that the
    effect makes returns at its guard, or raises [isLoading] and waits for
    the lookup; [env] holds the answers that such a call will get. *)
Definition render (env : Env) (p : Page) : Page :=
  let seen := isLoading (world p) in
  if bool_decide (captured p = Some seen) then p
  else if seen
       then {| world := world p; captured := Some seen;
               inFlight := inFlight p |}
       else {| world := snd (setIsLoading true (world p));
               captured := Some seen;
               inFlight := Some env |}.

(** The call in flight runs to its end: lookup, inserts, [finally]. Its
    first step, raising the flag, was taken when it started; taking it
    again here changes nothing. *)
Definition complete (p : Page) : Page :=
  match inFlight p with
  | Some env =>
      {| world := snd (logVisitorInfo env false (world p));
         captured := captured p;
         inFlight := None |}
  | None => p
  end.

(** One round: a render that starts a call, the render that the raised
    flag causes, and the end of the call. *)
Definition round (p : Page) (env : Env) : Page :=
  complete (render env (render env p)).

End CvPage.

(** ** JavaScript objects used as dictionaries

    The objects that the pages use as dictionaries are ordinary objects made
    by an object literal: their prototype is [Object.prototype], as the
    language standard defines it (Annex B included), and every property they
    get is an enumerable data property. *)

Module JSObject.

(** The own properties of such an object, in the order in which
    [Object.entries], [Object.keys] and the spread syntax list them: array
    indices first, in ascending order, then the other keys in the order in
    which they were created. *)
Definition Properties (V : Type) : Type := list (string * V).

(** [{}] *)
Definition empty {V : Type} : Properties V := [].

(** An array index: the canonical decimal text of an integer below
    [2^32 - 1] (no sign, no leading zero). *)
Definition arrayIndex (key : string) : option Z :=
  match key with
  | EmptyString => None
  | String c rest =>
      if Ascii.eqb c "0" && negb (String.eqb rest "") then None
      else match JSDate.digitsValue key 0 with
           | Some n => if (n <? 4294967295)%Z then Some n else None
           | None => None
           end
  end.

(** What [Object.prototype] holds under a key. *)
Inductive Member :=
| BuiltinFunction   (* a writable data property whose value is a function *)
| ProtoAccessor.    (* [__proto__]: the getter answers [Object.prototype],
                       the setter ignores what is neither object nor null *)

Definition builtinFunctions : list string :=
  ["constructor"; "hasOwnProperty"; "isPrototypeOf"; "propertyIsEnumerable";
   "toLocaleString"; "toString"; "valueOf";
   "__defineGetter__"; "__defineSetter__";
   "__lookupGetter__"; "__lookupSetter__"].

Definition objectPrototype (key : string) : option Member :=
  if String.eqb key "__proto__" then Some ProtoAccessor
  else if existsb (String.eqb key) builtinFunctions then Some BuiltinFunction
  else None.

Section Operations.

Context {V : Type}.

(** The own property under [key], if there is one. *)
Fixpoint own (o : Properties V) (key : string) : option V :=
  match o with
  | [] => None
  | (k, v) :: rest => if String.eqb k key then Some v else own rest key
  end.

(** [o[key]]: the own property, else what the prototype holds, else
    [undefined]. *)
Inductive Got :=
| OwnValue (v : V)
| Inherited (m : Member)
| Undefined.

Definition get (o : Properties V) (key : string) : Got :=
  match own o key with
  | Some v => OwnValue v
  | None =>
      match objectPrototype key with
      | Some m => Inherited m
      | None => Undefined
      end
  end.

(** A new value for a property that is there: its place is kept. *)
Fixpoint update (o : Properties V) (key : string) (v : V) : Properties V :=
  match o with
  | [] => []
  | (k, x) :: rest =>
      if String.eqb k key then (k, v) :: rest
      else (k, x) :: update rest key v
  end.

(** A new property: an array index goes to its place among the array
    indices, any other key to the end. *)
Fixpoint addIndexed (i : Z) (key : string) (v : V) (o : Properties V)
  : Properties V :=
  match o with
  | [] => [(key, v)]
  | (k, x) :: rest =>
      match arrayIndex k with
      | Some j =>
          if (j <? i)%Z then (k, x) :: addIndexed i key v rest
          else (key, v) :: o
      | None => (key, v) :: o
      end
  end.

Definition add (o : Properties V) (key : string) (v : V) : Properties V :=
  match arrayIndex key with
  | Some i => addIndexed i key v o
  | None => (o ++ [(key, v)])%list
  end.

(** [{ ...o, [key]: v }] defines an own property whatever the prototype
    holds; the copy [{ ...o }] lists the properties as [o] does. *)
Definition define (o : Properties V) (key : string) (v : V) : Properties V :=
  match own o key with
  | Some _ => update o key v
  | None => add o key v
  end.

(** [o[key] = v] for a primitive [v]: an own property is overwritten; a
    key that the prototype holds as a writable data property, or does not
    hold, becomes a new own property; for [__proto__] the setter of the
    prototype runs and does nothing. *)
Definition set (o : Properties V) (key : string) (v : V) : Properties V :=
  match own o key with
  | Some _ => update o key v
  | None =>
      match objectPrototype key with
      | Some ProtoAccessor => o
      | _ => add o key v
      end
  end.

(** [Object.entries(o)] *)
Definition entries (o : Properties V) : list (string * V) := o.

End Operations.

Arguments Got V : clear implicits.

End JSObject.

(** ** The statistics page: what its listings share *)

Module Stats.

(** What a property of a grouping can hold: a number, or a string. The
    strings come from the members of [Object.prototype]; the text that a
    built-in function converts to is chosen by the host (the standard fixes
    its syntax, [function ... { [native code] }], not its spacing), so it is
    kept as the key under which [Object.prototype] holds the function,
    together with the characters appended to it. *)
Inductive Value :=
| Number (n : nat)
| Str (s : string)
| FunctionSource (key : string) (tail : string).

Definition Counters : Type := JSObject.Properties Value.

(** [(counts[key] || 0) + 1] from what [counts[key]] gave: [undefined], [0]
    and the empty string are falsy; a string or an object on the left of
    [+] makes it a concatenation, a function converting to its source text
    and [Object.prototype] to ["[object Object]"]. *)
Definition orZeroPlusOne (key : string) (got : JSObject.Got Value) : Value :=
  match got with
  | JSObject.Undefined => Number 1
  | JSObject.OwnValue (Number n) => Number (n + 1)
  | JSObject.OwnValue (Str s) =>
      if String.eqb s "" then Number 1 else Str (s +:+ "1")
  | JSObject.OwnValue (FunctionSource f tail) => FunctionSource f (tail +:+ "1")
  | JSObject.Inherited JSObject.BuiltinFunction => FunctionSource key "1"
  | JSObject.Inherited JSObject.ProtoAccessor => Str "[object Object]1"
  end.

(** [counts[key] = (counts[key] || 0) + 1] on an object used as a
    dictionary. *)
Definition increment (counts : Counters) (key : string) : Counters :=
  JSObject.set counts key (orZeroPlusOne key (JSObject.get counts key)).

(** A counter as a JavaScript number (a binary64 float; exact below 2^53). *)
Definition number_of_nat (n : nat) : float :=
  PrimFloat.of_uint63 (Uint63.of_Z (Z.of_nat n)).

(** [x.toFixed(1)] for |x| < 1e21: the integer [n] nearest to [10 * x],
    the larger one on a tie, printed with one digit after the point. *)
Definition toFixed1 (x : float) : string :=
  match Prim2SF x with
  | S754_nan => "NaN"
  | S754_infinity s => if s then "-Infinity" else "Infinity"
  | S754_zero _ => "0.0"
  | S754_finite s m e =>
      let n := (if 0 <=? e then 10 * Z.pos m * 2 ^ e
                else (20 * Z.pos m + 2 ^ (- e)) / 2 ^ (- e + 1))%Z in
      (if s then "-" else "")
        +:+ pretty (Z.to_N (n / 10)) +:+ "." +:+ pretty (Z.to_N (n mod 10))
  end.

(** The result of [getPercentChange] is the number 0 or a string. *)
Inductive NumberOrString :=
| JSNumber (x : float)
| JSString (s : string).

(** [getPercentChange], called on counters; the two listings of the page
    that have it agree on its text. *)
Definition getPercentChange (current total : nat) : NumberOrString :=
  if (total =? 0)%nat then JSNumber 0%float
  else JSString
         (toFixed1 ((number_of_nat current / number_of_nat total) * 100)%float).

(** The answer of
    [supabase.from('visitor_logs').select('*').order('timestamp', ...)]:
    the call throws, or it resolves to [{ data, error }]. *)
Inductive QueryOutcome (Row : Type) :=
| QueryThrows (e : Eff.Thrown)
| QueryAnswers (data : option (list Row)) (error : option Eff.Thrown).
Arguments QueryThrows {Row} e.
Arguments QueryAnswers {Row} data error.

End Stats.

(** ** The statistics page, [src/app/stats/page.tsx]
    (the listing with device types and time zones) *)

Module StatsPage.

Import JSDate Stats.

Record VisitorLog := {
  id : Z;
  ip : string;
  timestamp : string;
  os : string;
  browser : string;
  device_type : string;
  device_model : string;
  time_zone : string
}.

Record VisitorStats := {
  totalVisits : nat;
  browsers : Counters;
  operatingSystems : Counters;
  deviceTypes : Counters;
  timeZones : Counters;
  recentVisits : list VisitorLog;
  todayVisits : nat;
  lastWeekVisits : nat
}.

(** The variables that the [forEach] callback updates. *)
Record Tally := {
  tally_browsers : Counters;
  tally_operatingSystems : Counters;
  tally_deviceTypes : Counters;
  tally_timeZones : Counters;
  todayCount : nat;
  weekCount : nat
}.

Definition emptyTally : Tally :=
  {| tally_browsers := JSObject.empty;
     tally_operatingSystems := JSObject.empty;
     tally_deviceTypes := JSObject.empty; tally_timeZones := JSObject.empty;
     todayCount := 0; weekCount := 0 |}.

Section WithRuntime.

Variable rt : Runtime.

(** The body of the [forEach] callback. *)
Definition visit (today weekAgo : Date) (acc : Tally) (log : VisitorLog)
  : Tally :=
  let logDate := newDateOfString rt (timestamp log) in
  {| tally_browsers := increment (tally_browsers acc) (browser log);
     tally_operatingSystems :=
       increment (tally_operatingSystems acc) (os log);
     tally_deviceTypes := increment (tally_deviceTypes acc) (device_type log);
     tally_timeZones := increment (tally_timeZones acc) (time_zone log);
     todayCount :=
       if date_ge logDate today then S (todayCount acc) else todayCount acc;
     weekCount :=
       if date_ge logDate weekAgo then S (weekCount acc) else weekCount acc |}.

(** [today] and [weekAgo] as [calculateStats] computes them from the
    instant [now] read by [new Date()]. *)
Definition todayOf (now : Z) : Date :=
  let now := Some now in
  newDateYMD rt (getFullYear rt now) (getMonth rt now) (getDate rt now).

Definition weekAgoOf (today : Date) : Date :=
  let weekAgo := newDateCopy today in
  setDate rt weekAgo ((fun date => date - 7)%Z <$> getDate rt weekAgo).

Definition calculateStats (now : Z) (logs : list VisitorLog) : VisitorStats :=
  let today := todayOf now in
  let weekAgo := weekAgoOf today in
  let acc := fold_left (visit today weekAgo) logs emptyTally in
  {| totalVisits := length logs;
     browsers := tally_browsers acc;
     operatingSystems := tally_operatingSystems acc;
     deviceTypes := tally_deviceTypes acc;
     timeZones := tally_timeZones acc;
     recentVisits := take 50 logs;
     todayVisits := todayCount acc;
     lastWeekVisits := weekCount acc |}.

(** *** The component's state and [fetchLogs] *)

Record PageState := {
  stats : VisitorStats;
  loading : bool;
  console : list Eff.ConsoleEntry
}.

Definition initialStats : VisitorStats :=
  {| totalVisits := 0; browsers := JSObject.empty;
     operatingSystems := JSObject.empty;
     deviceTypes := JSObject.empty; timeZones := JSObject.empty;
     recentVisits := [];
     todayVisits := 0; lastWeekVisits := 0 |}.

Definition initialState : PageState :=
  {| stats := initialStats; loading := true; console := [] |}.

Local Open Scope eff_scope.

Definition setStats (v : VisitorStats) : Eff.M PageState unit :=
  Eff.modify (fun st =>
    {| stats := v; loading := loading st; console := console st |}).

Definition setLoading (b : bool) : Eff.M PageState unit :=
  Eff.modify (fun st =>
    {| stats := stats st; loading := b; console := console st |}).

Definition console_error (text : string) : Eff.M PageState unit :=
  Eff.modify (fun st =>
    {| stats := stats st; loading := loading st;
       console := (console st ++ [Eff.ConsoleError text])%list |}).

Definition select (q : QueryOutcome VisitorLog)
  : Eff.M PageState (option (list VisitorLog) * option Eff.Thrown) :=
  match q with
  | QueryThrows e => Eff.throw e
  | QueryAnswers data error => Eff.ret (data, error)
  end.

(** [fetchLogs] at the instant [now], the store answering [q]. *)
Definition fetchLogs (now : Z) (q : QueryOutcome VisitorLog)
  : Eff.M PageState unit :=
  Eff.try_finally
    (Eff.try_catch
       (answer <- select q ;;
        match snd answer with
        | Some _ => console_error "Error fetching logs:"
        | None => setStats (calculateStats now (default [] (fst answer)))
        end)
       (fun error => console_error "Failed to fetch logs:"))
    (setLoading false).

End WithRuntime.

End StatsPage.

(** ** The statistics page, earlier listing ([src/unnamed/part_002]):
    browsers and operating systems only, the week counted in
    milliseconds *)

Module StatsPageEarlier.

Import JSDate Stats.

Record VisitorLog := {
  id : Z;
  ip : string;
  timestamp : string;
  os : string;
  browser : string
}.

Record VisitorStats := {
  totalVisits : nat;
  browsers : Counters;
  operatingSystems : Counters;
  recentVisits : list VisitorLog;
  todayVisits : nat;
  lastWeekVisits : nat
}.

Record Tally := {
  tally_browsers : Counters;
  tally_operatingSystems : Counters;
  todayCount : nat;
  weekCount : nat
}.

Definition emptyTally : Tally :=
  {| tally_browsers := JSObject.empty;
     tally_operatingSystems := JSObject.empty;
     todayCount := 0; weekCount := 0 |}.

Section WithRuntime.

Variable rt : Runtime.

Definition visit (today lastWeek : Date) (acc : Tally) (log : VisitorLog)
  : Tally :=
  let visitDate := newDateOfString rt (timestamp log) in
  {| tally_browsers := increment (tally_browsers acc) (browser log);
     tally_operatingSystems :=
       increment (tally_operatingSystems acc) (os log);
     todayCount :=
       if date_ge visitDate today then S (todayCount acc) else todayCount acc;
     weekCount :=
       if date_ge visitDate lastWeek then S (weekCount acc)
       else weekCount acc |}.

Definition todayOf (now : Z) : Date :=
  let now := Some now in
  newDateYMD rt (getFullYear rt now) (getMonth rt now) (getDate rt now).

Definition lastWeekOf (today : Date) : Date :=
  newDateOfNumber
    ((fun t => t - 7 * 24 * 60 * 60 * 1000)%Z <$> getTime today).

Definition calculateStats (now : Z) (logs : list VisitorLog) : VisitorStats :=
  let today := todayOf now in
  let lastWeek := lastWeekOf today in
  let acc := fold_left (visit today lastWeek) logs emptyTally in
  {| totalVisits := length logs;
     browsers := tally_browsers acc;
     operatingSystems := tally_operatingSystems acc;
     recentVisits := take 50 logs;
     todayVisits := todayCount acc;
     lastWeekVisits := weekCount acc |}.

Record PageState := {
  stats : VisitorStats;
  loading : bool;
  console : list Eff.ConsoleEntry
}.

Definition initialStats : VisitorStats :=
  {| totalVisits := 0; browsers := JSObject.empty;
     operatingSystems := JSObject.empty;
     recentVisits := []; todayVisits := 0; lastWeekVisits := 0 |}.

Definition initialState : PageState :=
  {| stats := initialStats; loading := true; console := [] |}.

Local Open Scope eff_scope.

Definition setStats (v : VisitorStats) : Eff.M PageState unit :=
  Eff.modify (fun st =>
    {| stats := v; loading := loading st; console := console st |}).

Definition setLoading (b : bool) : Eff.M PageState unit :=
  Eff.modify (fun st =>
    {| stats := stats st; loading := b; console := console st |}).

Definition console_error (text : string) : Eff.M PageState unit :=
  Eff.modify (fun st =>
    {| stats := stats st; loading := loading st;
       console := (console st ++ [Eff.ConsoleError text])%list |}).

Definition select (q : QueryOutcome VisitorLog)
  : Eff.M PageState (option (list VisitorLog) * option Eff.Thrown) :=
  match q with
  | QueryThrows e => Eff.throw e
  | QueryAnswers data error => Eff.ret (data, error)
  end.

Definition fetchLogs (now : Z) (q : QueryOutcome VisitorLog)
  : Eff.M PageState unit :=
  Eff.try_finally
    (Eff.try_catch
       (answer <- select q ;;
        match snd answer with
        | Some _ => console_error "Error fetching logs:"
        | None => setStats (calculateStats now (default [] (fst answer)))
        end)
       (fun error => console_error "Failed to fetch logs:"))
    (setLoading false).

End WithRuntime.

End StatsPageEarlier.

(** ** The statistics page, first listing of [src/app/stats/page.tsx]:
    groupings only, no time windows *)

Module StatsPageFirst.

Import Stats.

Record VisitorLog := {
  id : Z;
  ip : string;
  timestamp : string;
  os : string;
  browser : string
}.

Record VisitorStats := {
  totalVisits : nat;
  browsers : Counters;
  operatingSystems : Counters;
  recentVisits : list VisitorLog
}.

Record Tally := {
  tally_browsers : Counters;
  tally_operatingSystems : Counters
}.

Definition emptyTally : Tally :=
  {| tally_browsers := JSObject.empty;
     tally_operatingSystems := JSObject.empty |}.

Definition visit (acc : Tally) (log : VisitorLog) : Tally :=
  {| tally_browsers := increment (tally_browsers acc) (browser log);
     tally_operatingSystems :=
       increment (tally_operatingSystems acc) (os log) |}.

Definition calculateStats (logs : list VisitorLog) : VisitorStats :=
  let acc := fold_left visit logs emptyTally in
  {| totalVisits := length logs;
     browsers := tally_browsers acc;
     operatingSystems := tally_operatingSystems acc;
     recentVisits := take 50 logs |}.

End StatsPageFirst.

(** ** The statistics page: the ranked lists it renders *)

Module StatsView.

(** [array.sort(compare)]: a stable sort; [compare a b > 0] puts [a] after
    [b]. Elements are inserted from the right, each one in front of the
    sorted rest and past the elements it has to follow. *)
Section ArraySort.

Context {A : Type}.
Variable compare : A -> A -> Z.

Fixpoint insertSorted (x : A) (sorted : list A) : list A :=
  match sorted with
  | [] => [x]
  | y :: rest =>
      if (0 <? compare x y)%Z then y :: insertSorted x rest
      else x :: y :: rest
  end.

Definition arraySort (l : list A) : list A := foldr insertSorted [] l.

End ArraySort.

(** The comparator [([, a], [, b]) => b - a] on entries [[key, count]]
    whose counters are numbers. *)
Definition byCountDescending (x y : string * nat) : Z :=
  (Z.of_nat (snd y) - Z.of_nat (snd x))%Z.

(** [Object.entries(grouping).sort(([, a], [, b]) => b - a)], the
    distribution lists of the listings with time windows; [entries] is what
    [Object.entries] enumerated. *)
Definition ranked (entries : list (string * nat)) : list (string * nat) :=
  arraySort byCountDescending entries.

(** [... .sort(([, a], [, b]) => b - a).slice(0, 3)], the "Top Browsers" and
    "Top Operating Systems" cards of the first listing. *)
Definition topThree (entries : list (string * nat)) : list (string * nat) :=
  take 3 (ranked entries).

End StatsView.

(** ** The address route ([GET] of the API route, [src/unnamed/part_001]) *)

Module IpRoute.

(** A header value is a string or [null]; [null] and the empty string are
    falsy. *)
Definition truthy (v : option string) : bool :=
  match v with
  | Some s => negb (String.eqb s "")
  | None => false
  end.

(** [a || b] *)
Definition or (a b : option string) : option string :=
  if truthy a then a else b.

(** [GET]: the [ip] of the JSON answer, from [headersList.get]. *)
Definition GET (get : string -> option string) : option string :=
  or (or (get "x-forwarded-for") (get "x-real-ip")) (Some "127.0.0.1").

End IpRoute.

(** ** The CV component: the typewriter headline *)

Module Typewriter.

Definition fullText : string :=
  "Driving Innovation and Security in IT Operations".

(** [s.slice(0, n)] for [0 <= n]. *)
Definition slice0 (s : string) (n : nat) : string := String.substring 0 n s.

(** *** Second listing: one interval, a counter in the closure

    [currentIndex] and the interval live in the effect's closure; [text] is
    React state. [tick] is the interval callback; a cleared interval does
    not tick. *)
Record Interval := {
  currentIndex : nat;
  text : string;
  cleared : bool
}.

Definition mounted : Interval :=
  {| currentIndex := 0; text := ""; cleared := false |}.

Definition tick (st : Interval) : Interval :=
  if cleared st then st
  else if (currentIndex st <=? String.length fullText)%nat
       then {| currentIndex := S (currentIndex st);
               text := slice0 fullText (currentIndex st);
               cleared := false |}
       else {| currentIndex := currentIndex st;
               text := text st;
               cleared := true |}.

(** *** First listing: a timeout per character, with a sound

    The effect runs after every render in which [text] changed; it arms a
    timeout only while [text] is shorter than [fullText]. [timeout] is the
    timeout callback; [sounds] counts the calls of [playTypingSound]. *)
Record Typing := {
  typed : string;
  sounds : nat
}.

Definition armed (st : Typing) : bool :=
  (String.length (typed st) <? String.length fullText)%nat.

Definition timeout (st : Typing) : Typing :=
  {| typed := slice0 fullText (String.length (typed st) + 1);
     sounds := S (sounds st) |}.

(** One turn of the effect: the armed timeout fires, or nothing happens. *)
Definition turn (st : Typing) : Typing :=
  if armed st then timeout st else st.

Definition firstRender : Typing := {| typed := ""; sounds := 0 |}.

End Typewriter.

(** ** The CV component: expandable job sections *)

Module JobSections.

(** [type JobKey = keyof ExpandedJobs] *)
Inductive JobKey := hafniaIT | hafniaFS | axa | worldKitchen | veolia.

Record ExpandedJobs := {
  is_hafniaIT : bool;
  is_hafniaFS : bool;
  is_axa : bool;
  is_worldKitchen : bool;
  is_veolia : bool
}.

(** [prev[jobKey]] *)
Definition expanded (prev : ExpandedJobs) (jobKey : JobKey) : bool :=
  match jobKey with
  | hafniaIT => is_hafniaIT prev
  | hafniaFS => is_hafniaFS prev
  | axa => is_axa prev
  | worldKitchen => is_worldKitchen prev
  | veolia => is_veolia prev
  end.

(** The updater that [toggleJob(jobKey)] hands to [setExpandedJobs]:
    [prev => ({ ...prev, [jobKey]: !prev[jobKey] })]. *)
Definition toggleJob (jobKey : JobKey) (prev : ExpandedJobs) : ExpandedJobs :=
  let flipped := negb (expanded prev jobKey) in
  match jobKey with
  | hafniaIT =>
      {| is_hafniaIT := flipped; is_hafniaFS := is_hafniaFS prev;
         is_axa := is_axa prev; is_worldKitchen := is_worldKitchen prev;
         is_veolia := is_veolia prev |}
  | hafniaFS =>
      {| is_hafniaIT := is_hafniaIT prev; is_hafniaFS := flipped;
         is_axa := is_axa prev; is_worldKitchen := is_worldKitchen prev;
         is_veolia := is_veolia prev |}
  | axa =>
      {| is_hafniaIT := is_hafniaIT prev; is_hafniaFS := is_hafniaFS prev;
         is_axa := flipped; is_worldKitchen := is_worldKitchen prev;
         is_veolia := is_veolia prev |}
  | worldKitchen =>
      {| is_hafniaIT := is_hafniaIT prev; is_hafniaFS := is_hafniaFS prev;
         is_axa := is_axa prev; is_worldKitchen := flipped;
         is_veolia := is_veolia prev |}
  | veolia =>
      {| is_hafniaIT := is_hafniaIT prev; is_hafniaFS := is_hafniaFS prev;
         is_axa := is_axa prev; is_worldKitchen := is_worldKitchen prev;
         is_veolia := flipped |}
  end.

(** The state with which the component mounts: every section collapsed. *)
Definition allCollapsed : ExpandedJobs :=
  {| is_hafniaIT := false; is_hafniaFS := false; is_axa := false;
     is_worldKitchen := false; is_veolia := false |}.

(** The first listings keep the sections in an object keyed by strings,
    [{ [key: string]: boolean }], and [toggleJob] takes any string. [!]
    and [&&] read [prev[jobKey]] by its truthiness: [undefined] is falsy,
    what [Object.prototype] holds (a function, or the prototype itself) is
    truthy. *)
Definition truthy (got : JSObject.Got bool) : bool :=
  match got with
  | JSObject.OwnValue b => b
  | JSObject.Inherited _ => true
  | JSObject.Undefined => false
  end.

(** [prev => ({ ...prev, [jobKey]: !prev[jobKey] })] *)
Definition toggleJobByName (jobKey : string) (prev : JSObject.Properties bool)
  : JSObject.Properties bool :=
  JSObject.define prev jobKey (negb (truthy (JSObject.get prev jobKey))).

(** [expandedJobs.name && ...] and [expandedJobs.name ? ... : ...] in the
    markup. *)
Definition shown (jobs : JSObject.Properties bool) (name : string) : bool :=
  truthy (JSObject.get jobs name).

Definition allCollapsedByName : JSObject.Properties bool :=
  [("hafniaIT", false); ("hafniaFS", false); ("axa", false);
   ("worldKitchen", false); ("veolia", false)].

End JobSections.

(** * The vocabulary of the statements *)

(** [s] contains [pat]: some text, then [pat], then some text. *)
Definition contains (s pat : string) : Prop :=
  exists before after : string, s = before +:+ pat +:+ after.

(** ** The retry loop *)

(** The world after an iteration whose insert was accepted. *)
Definition afterAccepted (record : Recorder.VisitorLog) (w : Recorder.World)
  : Recorder.World :=
  {| Recorder.isLoading := Recorder.isLoading w;
     Recorder.console :=
       (Recorder.console w
        ++ [Eff.ConsoleLog "Successfully logged visitor:"])%list;
     Recorder.visitor_logs := (Recorder.visitor_logs w ++ [record])%list;
     Recorder.inserts := S (Recorder.inserts w);
     Recorder.pauses := Recorder.pauses w |}.

(** The world after an iteration whose insert failed, the iteration having
    started with [retries = S retries']. *)
Definition afterFailed (retries' : nat) (w : Recorder.World) : Recorder.World :=
  {| Recorder.isLoading := Recorder.isLoading w;
     Recorder.console :=
       if (retries' =? 0)%nat
       then (Recorder.console w ++
             [Eff.ConsoleError
                "Failed to store visitor info after all retries:"])%list
       else Recorder.console w;
     Recorder.visitor_logs := Recorder.visitor_logs w;
     Recorder.inserts := S (Recorder.inserts w);
     Recorder.pauses := S (Recorder.pauses w) |}.

(** The [error] with which the store refuses a row in the examples. *)
Definition storeError : Eff.Thrown :=
  {| Eff.isError := false; Eff.name := "PostgrestError";
     Eff.message := "upstream connect error" |}.

(** A store that refuses the first [failures] inserts and accepts every
    later one. *)
Definition refuseThenAccept (failures : nat) (n : nat) : Recorder.InsertOutcome :=
  if (n <? failures)%nat then Recorder.InsertRefused storeError
  else Recorder.InsertAccepted.

(** A page load on which the address lookup succeeds and the store refuses
    three inserts before it would accept one. *)
Definition threeRefusalsEnv : Recorder.Env :=
  {| Recorder.userAgent :=
       "Mozilla/5.0 (X11; Linux x86_64; rv:120.0) Gecko/20100101 Firefox/120.0";
     Recorder.clock := 1773144000000;
     Recorder.fetchIp :=
       Recorder.FetchResolves true
         (Recorder.JsonResolves (Recorder.BodyWithIp "203.0.113.7"));
     Recorder.insertOutcome := refuseThenAccept 3 |}.

(** The record that this page load builds. *)
Definition threeRefusalsRecord : Recorder.VisitorLog :=
  {| Recorder.ip := Some "203.0.113.7";
     Recorder.timestamp := "2026-03-10T12:00:00.000Z";
     Recorder.os := "Linux";
     Recorder.browser := "Firefox" |}.

(** A page load on which the address lookup is aborted by the timer. *)
Definition lookupTimesOutEnv : Recorder.Env :=
  {| Recorder.userAgent := Recorder.userAgent threeRefusalsEnv;
     Recorder.clock := 1773144000000;
     Recorder.fetchIp := Recorder.FetchRejects Recorder.abortError;
     Recorder.insertOutcome := fun _ => Recorder.InsertAccepted |}.

(** ** The time windows *)

(** The hosts and instants of the theorems on time windows: the offset of
    local time from UTC never exceeds a day, and the clock reads an instant
    from 1970 on, two days or more before the end of the range of [Date]. *)
Definition offsetsWithinADay (rt : JSDate.Runtime) : Prop :=
  forall (t : Z) (isUTC : bool),
    (Z.abs (JSDate.LocalTZA rt t isUTC) <= JSDate.msPerDay)%Z.

Definition clockInRange (now : Z) : Prop :=
  (0 <= now <= JSDate.maxTimeValue - 2 * JSDate.msPerDay)%Z.

(** The instant at which the local clock shows what it shows at [t], seven
    calendar days earlier. *)
Definition sevenCalendarDaysBefore (rt : JSDate.Runtime) (t : Z) : Z :=
  JSDate.UTC rt (JSDate.LocalTime rt t - 7 * JSDate.msPerDay).

(** A timestamp is at or after [bound] when it parses to an instant that
    is; a timestamp that does not parse is not. *)
Definition timestampAtOrAfter (rt : JSDate.Runtime) (bound : Z) (ts : string)
  : bool :=
  match JSDate.newDateOfString rt ts with
  | Some t => (bound <=? t)%Z
  | None => false
  end.

(** The number of timestamps at or after [bound]. *)
Definition visitsSince (rt : JSDate.Runtime) (bound : Z) (timestamps : list string)
  : nat :=
  length (List.filter (timestampAtOrAfter rt bound) timestamps).

(** Noon of 10 March 2026 in New York (16:00 UTC), two days after the
    clocks went forward. *)
Definition noonAfterDst : Z := 1773158400000.

(** A visit at 04:30 UTC on 3 March 2026 (23:30 local time on 2 March). *)
Definition visitBeforeDst : StatsPage.VisitorLog :=
  {| StatsPage.id := 1;
     StatsPage.ip := "203.0.113.7";
     StatsPage.timestamp := "2026-03-03T04:30:00.000Z";
     StatsPage.os := "Linux";
     StatsPage.browser := "Firefox";
     StatsPage.device_type := "Desktop";
     StatsPage.device_model := "Unknown";
     StatsPage.time_zone := "America/New_York" |}.

(** A visit one second before that noon, as the earlier listing reads
    it. *)
Definition earlierVisit : StatsPageEarlier.VisitorLog :=
  {| StatsPageEarlier.id := 7;
     StatsPageEarlier.ip := "198.51.100.23";
     StatsPageEarlier.timestamp := "2026-03-10T15:59:59.000Z";
     StatsPageEarlier.os := "macOS";
     StatsPageEarlier.browser := "Safari" |}.

(** ** One call of the recorder, in closed form *)

(** The address lookup fails: [fetch] rejects (the abort after 5000 ms
    included), the answer has a bad status, the body does not parse, or the
    body is [null]. *)
Definition lookupFails (env : Recorder.Env) : bool :=
  match Recorder.fetchIp env with
  | Recorder.FetchRejects _ => true
  | Recorder.FetchResolves false _ => true
  | Recorder.FetchResolves true (Recorder.JsonRejects _) => true
  | Recorder.FetchResolves true (Recorder.JsonResolves Recorder.BodyNull) => true
  | Recorder.FetchResolves true (Recorder.JsonResolves _) => false
  end.

(** The record that a call offers to the store once the lookup has
    succeeded. *)
Definition recordOf (env : Recorder.Env) : Recorder.VisitorLog :=
  {| Recorder.ip :=
       match Recorder.fetchIp env with
       | Recorder.FetchResolves _
           (Recorder.JsonResolves (Recorder.BodyWithIp address)) => Some address
       | _ => None
       end;
     Recorder.timestamp := JSDate.toISOString (Recorder.clock env);
     Recorder.os := Recorder.detectOS (Recorder.userAgent env);
     Recorder.browser := Recorder.detectBrowser (Recorder.userAgent env) |}.

(** How many of the [n] inserts from number [from] on fail before the
    first one that the store accepts. *)
Fixpoint failuresFirst (env : Recorder.Env) (from n : nat) : nat :=
  match n with
  | O => 0
  | S n' =>
      match Recorder.insertOutcome env from with
      | Recorder.InsertAccepted => 0
      | _ => S (failuresFirst env (S from) n')
      end
  end.

(** The world that the retry loop leaves when it starts with
    [retries = n]. *)
Definition afterRetries (env : Recorder.Env) (n : nat)
  (record : Recorder.VisitorLog) (w : Recorder.World) : Recorder.World :=
  let failures := failuresFirst env (Recorder.inserts w) n in
  let stored := (failures <? n)%nat in
  {| Recorder.isLoading := Recorder.isLoading w;
     Recorder.console :=
       (Recorder.console w ++
        (if stored then [Eff.ConsoleLog "Successfully logged visitor:"]
         else if (0 <? n)%nat
              then [Eff.ConsoleError
                      "Failed to store visitor info after all retries:"]
              else []))%list;
     Recorder.visitor_logs :=
       if stored then (Recorder.visitor_logs w ++ [record])%list
       else Recorder.visitor_logs w;
     Recorder.inserts :=
       Recorder.inserts w + (if stored then S failures else n);
     Recorder.pauses := Recorder.pauses w + failures |}.

(** The error that the address lookup ends in, if it does: the rejection
    of [fetch], the [Error] thrown on a bad status, the rejection of
    [json()], or the [TypeError] of reading [ip] from [null]. *)
Definition lookupError (env : Recorder.Env) : option Eff.Thrown :=
  match Recorder.fetchIp env with
  | Recorder.FetchRejects e => Some e
  | Recorder.FetchResolves false _ =>
      Some (Recorder.newError "Failed to fetch IP")
  | Recorder.FetchResolves true (Recorder.JsonRejects e) => Some e
  | Recorder.FetchResolves true (Recorder.JsonResolves Recorder.BodyNull) =>
      Some (Recorder.typeError "Cannot read properties of null (reading 'ip')")
  | Recorder.FetchResolves true (Recorder.JsonResolves _) => None
  end.

(** The one line that a call leaves on the console when it ends in an
    error, the store having seen [issued] inserts before: the lookup timed
    out, the lookup failed otherwise, or the lookup succeeded and the store
    took none of the three inserts. There is none when a record is
    stored. *)
Definition failureLine (env : Recorder.Env) (issued : nat)
  : option Eff.ConsoleEntry :=
  match lookupError env with
  | Some e =>
      Some (if Eff.isError e && bool_decide (Eff.name e = "AbortError")
            then Eff.ConsoleLog "Request timed out"
            else Eff.ConsoleError "Failed to log visitor info:")
  | None =>
      if (failuresFirst env issued 3 <? 3)%nat then None
      else Some (Eff.ConsoleError
                   "Failed to store visitor info after all retries:")
  end.

(** The component over its life: calls of [logVisitorInfo], each with the
    answers of its environment and the [isLoading] its closure saw. *)
Definition runCalls (calls : list (Recorder.Env * bool)) (w : Recorder.World)
  : Recorder.World :=
  fold_left
    (fun w call => snd (Recorder.logVisitorInfo (fst call) (snd call) w))
    calls w.

(** A record whose classification is inside the vocabulary of the data
    model. *)
Definition inVocabulary (record : Recorder.VisitorLog) : Prop :=
  In (Recorder.browser record) Recorder.browserVocabulary
  /\ In (Recorder.os record) Recorder.osVocabulary.

(** A page load on which the lookup succeeds and the store accepts the
    second insert. *)
Definition oneRefusalEnv : Recorder.Env :=
  {| Recorder.userAgent := Recorder.userAgent threeRefusalsEnv;
     Recorder.clock := Recorder.clock threeRefusalsEnv;
     Recorder.fetchIp := Recorder.fetchIp threeRefusalsEnv;
     Recorder.insertOutcome := refuseThenAccept 1 |}.

(** ** The classification rules as tables *)

(** The tests of [detectBrowser] and of [detectOS] in their order: the
    substring looked for and the answer given. *)
Definition browserRules : list (string * string) :=
  [("Firefox", "Firefox"); ("Chrome", "Chrome"); ("Safari", "Safari");
   ("Edge", "Edge"); ("Opera", "Opera")].

Definition osRules : list (string * string) :=
  [("Windows", "Windows"); ("Mac", "macOS"); ("Linux", "Linux");
   ("Android", "Android"); ("iOS", "iOS")].

(** No rule of the list finds its substring in [userAgent]. *)
Definition noneMatches (userAgent : string) (rules : list (string * string))
  : Prop :=
  Forall (fun rule => ~ contains userAgent (fst rule)) rules.

(** ** Groupings *)

(** The number of times [key] occurs in a list of keys. *)
Definition occurrences (key : string) (keys : list string) : nat :=
  length (List.filter (String.eqb key) keys).

(** A key that [Object.prototype] does not hold. Every word of the two
    vocabularies is one. *)
Definition ordinaryKey (key : string) : Prop :=
  JSObject.objectPrototype key = None.

(** The sum of the counters of a grouping; there is none when a property
    of the grouping holds something else than a number. *)
Fixpoint sumCounts (counts : Stats.Counters) : option nat :=
  match counts with
  | [] => Some 0
  | (_, Stats.Number n) :: rest => (fun sum => n + sum) <$> sumCounts rest
  | _ :: _ => None
  end.

(** [n] times the character 1. *)
Fixpoint ones (n : nat) : string :=
  match n with
  | O => ""
  | S n' => ones n' +:+ "1"
  end.

(** What a grouping holds under [key] once [n] rows have carried it:
    nothing when there was none; else the number [n], unless
    [Object.prototype] holds the key: the source text of the function found
    there, followed by one 1 for each row, and under [__proto__] nothing
    ever. *)
Definition counterAfter (key : string) (n : nat) : option Stats.Value :=
  match n with
  | O => None
  | S _ =>
      match JSObject.objectPrototype key with
      | None => Some (Stats.Number n)
      | Some JSObject.BuiltinFunction => Some (Stats.FunctionSource key (ones n))
      | Some JSObject.ProtoAccessor => None
      end
  end.

(** The rows of the latest listing as the earlier listings read them: the
    same columns without device type, device model and time zone. *)
Definition asEarlier (log : StatsPage.VisitorLog) : StatsPageEarlier.VisitorLog :=
  {| StatsPageEarlier.id := StatsPage.id log;
     StatsPageEarlier.ip := StatsPage.ip log;
     StatsPageEarlier.timestamp := StatsPage.timestamp log;
     StatsPageEarlier.os := StatsPage.os log;
     StatsPageEarlier.browser := StatsPage.browser log |}.

Definition asFirst (log : StatsPageEarlier.VisitorLog) : StatsPageFirst.VisitorLog :=
  {| StatsPageFirst.id := StatsPageEarlier.id log;
     StatsPageFirst.ip := StatsPageEarlier.ip log;
     StatsPageFirst.timestamp := StatsPageEarlier.timestamp log;
     StatsPageFirst.os := StatsPageEarlier.os log;
     StatsPageFirst.browser := StatsPageEarlier.browser log |}.

(** A second row for the examples: a visit on the sample day. *)
Definition visitAfterDst : StatsPage.VisitorLog :=
  {| StatsPage.id := 2;
     StatsPage.ip := "198.51.100.23";
     StatsPage.timestamp := "2026-03-10T15:59:59.000Z";
     StatsPage.os := "macOS";
     StatsPage.browser := "Safari";
     StatsPage.device_type := "Desktop";
     StatsPage.device_model := "Unknown";
     StatsPage.time_zone := "Europe/Paris" |}.

(** A row of the table that did not come from the recorder: its browser
    column names a member of [Object.prototype]. *)
Definition rowNamed (browser : string) : StatsPage.VisitorLog :=
  {| StatsPage.id := 3;
     StatsPage.ip := "192.0.2.1";
     StatsPage.timestamp := "2026-03-10T12:00:00.000Z";
     StatsPage.os := "Linux";
     StatsPage.browser := browser;
     StatsPage.device_type := "Desktop";
     StatsPage.device_model := "Unknown";
     StatsPage.time_zone := "UTC" |}.

(** ** The page over its life *)

(** The rows that a read delivers: [data || []] when the answer carries no
    [error]; nothing when it does or when the call throws. *)
Definition rowsRead {Row : Type} (q : Stats.QueryOutcome Row)
  : option (list Row) :=
  match q with
  | Stats.QueryAnswers data None => Some (default [] data)
  | _ => None
  end.

(** The loads of a mounted page in the order in which they complete: the
    one of the mount and one per change notification, each with the instant
    at which it completes and the answer of the store. A load touches the
    page only when it completes. *)
Definition runLoads (rt : JSDate.Runtime)
  (loads : list (Z * Stats.QueryOutcome StatsPage.VisitorLog))
  (st : StatsPage.PageState) : StatsPage.PageState :=
  fold_left
    (fun st load => snd (StatsPage.fetchLogs rt (fst load) (snd load) st))
    loads st.

(** The last load that delivered rows, with its instant. *)
Fixpoint lastRead {Row : Type} (loads : list (Z * Stats.QueryOutcome Row))
  : option (Z * list Row) :=
  match loads with
  | [] => None
  | load :: later =>
      match lastRead later with
      | Some found => Some found
      | None =>
          match rowsRead (snd load) with
          | Some rows => Some (fst load, rows)
          | None => None
          end
      end
  end.

(** The number of loads that delivered no rows. *)
Definition failedReads {Row : Type} (loads : list (Z * Stats.QueryOutcome Row))
  : nat :=
  length (List.filter
            (fun load => match rowsRead (snd load) with
                         | Some _ => false
                         | None => true
                         end) loads).

(** ** Ranked lists *)


(** ** The logging effect *)

(** A page on which a call of [logVisitorInfo] can start: the flag is down,
    nothing is in flight, and the last render (if there was one) saw the
    flag raised, so that the next render gets a new [logVisitorInfo]. *)
Definition callEnded (p : CvPage.Page) : Prop :=
  Recorder.isLoading (CvPage.world p) = false
  /\ CvPage.captured p <> Some false
  /\ CvPage.inFlight p = None.

(** * Examples *)

Example detectBrowser_firefox_ua :
  Recorder.detectBrowser
    "Mozilla/5.0 (X11; Linux x86_64; rv:120.0) Gecko/20100101 Firefox/120.0"
  = "Firefox".
Proof. reflexivity. Qed.

Example detectBrowser_chrome_ua :
  Recorder.detectBrowser
    "Mozilla/5.0 (X11; Linux x86_64) AppleWebKit/537.36 (KHTML, like Gecko) Chrome/120.0.0.0 Safari/537.36"
  = "Chrome".
Proof. reflexivity. Qed.

Example detectOS_linux_ua :
  Recorder.detectOS
    "Mozilla/5.0 (X11; Linux x86_64; rv:120.0) Gecko/20100101 Firefox/120.0"
  = "Linux".
Proof. reflexivity. Qed.

Example toISOString_epoch : JSDate.toISOString 0 = "1970-01-01T00:00:00.000Z".
Proof. reflexivity. Qed.

Example toISOString_2026 :
  JSDate.toISOString 1773144000000 = "2026-03-10T12:00:00.000Z".
Proof. reflexivity. Qed.

Example parseISO_2026 :
  JSDate.parseISO "2026-03-10T12:00:00.000Z" = Some 1773144000000%Z.
Proof. reflexivity. Qed.

Example parseISO_dst_start :
  JSDate.parseISO "2026-03-08T07:00:00.000Z" = Some JSDate.easternDstStart
  /\ JSDate.parseISO "2026-11-01T06:00:00.000Z" = Some JSDate.easternDstEnd.
Proof. split; reflexivity. Qed.

Example getPercentChange_a_third :
  Stats.getPercentChange 1 3 = Stats.JSString "33.3".
Proof. reflexivity. Qed.

Example getPercentChange_tie_rounds_up :
  Stats.getPercentChange 1 8 = Stats.JSString "12.5"
  /\ Stats.getPercentChange 1 400 = Stats.JSString "0.3".
Proof. split; reflexivity. Qed.

Example getPercentChange_of_nothing :
  Stats.getPercentChange 5 0 = Stats.JSNumber 0%float.
Proof. reflexivity. Qed.

(** The lookup is aborted: one line on the console, nothing stored, the
    flag down again. *)
Example lookup_timeout_is_logged :
  Recorder.logVisitorInfo lookupTimesOutEnv false Recorder.initialWorld
  = (Eff.Returns tt,
     {| Recorder.isLoading := false;
        Recorder.console := [Eff.ConsoleLog "Request timed out"];
        Recorder.visitor_logs := [];
        Recorder.inserts := 0;
        Recorder.pauses := 0 |}).
Proof. reflexivity. Qed.

(** Three refusals: three inserts, three pauses, one line on the console. *)
Example three_refusals_run :
  Recorder.logVisitorInfo threeRefusalsEnv false Recorder.initialWorld
  = (Eff.Returns tt,
     {| Recorder.isLoading := false;
        Recorder.console :=
          [Eff.ConsoleError "Failed to store visitor info after all retries:"];
        Recorder.visitor_logs := [];
        Recorder.inserts := 3;
        Recorder.pauses := 3 |}).
Proof. vm_compute. reflexivity. Qed.

(** One refusal, then the row is stored by the second insert. *)
Example second_insert_stores :
  Recorder.storeWithRetries
    {| Recorder.userAgent := Recorder.userAgent threeRefusalsEnv;
       Recorder.clock := Recorder.clock threeRefusalsEnv;
       Recorder.fetchIp := Recorder.fetchIp threeRefusalsEnv;
       Recorder.insertOutcome := refuseThenAccept 1 |}
    3 threeRefusalsRecord Recorder.initialWorld
  = (Eff.Returns tt,
     {| Recorder.isLoading := false;
        Recorder.console := [Eff.ConsoleLog "Successfully logged visitor:"];
        Recorder.visitor_logs := [threeRefusalsRecord];
        Recorder.inserts := 2;
        Recorder.pauses := 1 |}).
Proof. vm_compute. reflexivity. Qed.

(** Local midnight of the sample instant in New York is 04:00 UTC; seven
    calendar days earlier local midnight was 05:00 UTC. *)
Example eastern_boundaries :
  StatsPage.todayOf JSDate.easternHost noonAfterDst
  = JSDate.parseISO "2026-03-10T04:00:00.000Z"
  /\ StatsPage.weekAgoOf JSDate.easternHost
       (StatsPage.todayOf JSDate.easternHost noonAfterDst)
     = JSDate.parseISO "2026-03-03T05:00:00.000Z"
  /\ StatsPageEarlier.lastWeekOf
       (StatsPageEarlier.todayOf JSDate.easternHost noonAfterDst)
     = JSDate.parseISO "2026-03-03T04:00:00.000Z".
Proof. repeat split; vm_compute; reflexivity. Qed.

Example earlier_listing_sample :
  let s :=
    StatsPageEarlier.calculateStats JSDate.easternHost noonAfterDst
      [earlierVisit;
       {| StatsPageEarlier.id := 6; StatsPageEarlier.ip := "203.0.113.7";
          StatsPageEarlier.timestamp := "2026-03-03T04:30:00.000Z";
          StatsPageEarlier.os := "Linux";
          StatsPageEarlier.browser := "Firefox" |};
       {| StatsPageEarlier.id := 5; StatsPageEarlier.ip := "203.0.113.9";
          StatsPageEarlier.timestamp := "2026-01-01T00:00:00.000Z";
          StatsPageEarlier.os := "Linux";
          StatsPageEarlier.browser := "Safari" |}] in
  StatsPageEarlier.totalVisits s = 3
  /\ StatsPageEarlier.todayVisits s = 1
  /\ StatsPageEarlier.lastWeekVisits s = 2
  /\ JSObject.entries (StatsPageEarlier.browsers s)
     = [("Safari", Stats.Number 2); ("Firefox", Stats.Number 1)]
  /\ JSObject.get (StatsPageEarlier.operatingSystems s) "Linux"
     = JSObject.OwnValue (Stats.Number 2).
Proof. cbv zeta. repeat split; vm_compute; reflexivity. Qed.

(** * Properties *)

(** ** Substring search and classification *)

Lemma prefix_true_iff (p s : string) :
  String.prefix p s = true <-> exists after, s = p +:+ after.
Proof.
  revert s. induction p as [|a p IH]; intros s; simpl.
  - split; [intros _; exists s; reflexivity | destruct s; reflexivity].
  - destruct s as [|b s]; simpl.
    + split; [discriminate | intros [after H]; discriminate].
    + destruct (ascii_dec a b) as [->|Hne].
      * rewrite IH. split; intros [after H]; exists after.
        -- now rewrite H.
        -- now inversion H.
      * split; [discriminate | intros [after H]; inversion H; congruence].
Qed.

Lemma includes_unfold (s pat : string) :
  JSString.includes s pat =
  if String.prefix pat s then true
  else match s with
       | EmptyString => false
       | String _ rest => JSString.includes rest pat
       end.
Proof. destruct s; reflexivity. Qed.

Lemma includes_true_iff (s pat : string) :
  JSString.includes s pat = true <-> contains s pat.
Proof.
  induction s as [|c s IH]; rewrite includes_unfold;
    destruct (String.prefix pat _) eqn:Hp.
  - split; [intros _ | reflexivity].
    apply prefix_true_iff in Hp as [after H].
    exists "", after. exact H.
  - split; [discriminate | intros [before [after H]]].
    destruct before; simpl in H; [|discriminate].
    assert (String.prefix pat "" = true) as Hq
      by (apply prefix_true_iff; eauto).
    congruence.
  - split; [intros _ | reflexivity].
    apply prefix_true_iff in Hp as [after H].
    exists "", after. exact H.
  - rewrite IH. split; intros [before [after H]].
    + exists (String c before), after. simpl. now rewrite H.
    + destruct before as [|b before]; simpl in H.
      * assert (String.prefix pat (String c s) = true) as Hq
          by (apply prefix_true_iff; eauto).
        congruence.
      * inversion H. exists before, after. reflexivity.
Qed.

(** C3. Every user-agent string that contains "Firefox" is classified as
    the browser "Firefox", whatever else it contains: the test for
    "Firefox" is the first of the chain. *)
Theorem detectBrowser_firefox_first (userAgent : string) :
  contains userAgent "Firefox" ->
  Recorder.detectBrowser userAgent = "Firefox".
Proof.
  intros H. apply includes_true_iff in H.
  unfold Recorder.detectBrowser. now rewrite H.
Qed.

Lemma detectBrowser_firefox_first_witness :
  contains "Mozilla/5.0 Chrome/120.0 Safari/537.36 Edge Opera Firefox/120.0"
           "Firefox"
  /\ Recorder.detectBrowser
       "Mozilla/5.0 Chrome/120.0 Safari/537.36 Edge Opera Firefox/120.0"
     = "Firefox".
Proof.
  assert (contains
            "Mozilla/5.0 Chrome/120.0 Safari/537.36 Edge Opera Firefox/120.0"
            "Firefox") as H
    by (exists "Mozilla/5.0 Chrome/120.0 Safari/537.36 Edge Opera ", "/120.0";
        reflexivity).
  split; [exact H | exact (detectBrowser_firefox_first _ H)].
Defined.

(** C4. Classification is total and stays inside the vocabulary: for every
    user-agent string, the empty one included, [detectBrowser] answers one
    of Firefox, Chrome, Safari, Edge, Opera, Unknown and [detectOS] one of
    Windows, macOS, Linux, Android, iOS, Unknown; and whenever none of the
    tested substrings occurs the answer is "Unknown". *)
Theorem classification_in_vocabulary (userAgent : string) :
  In (Recorder.detectBrowser userAgent) Recorder.browserVocabulary
  /\ In (Recorder.detectOS userAgent) Recorder.osVocabulary
  /\ (existsb (JSString.includes userAgent) Recorder.browserPatterns = true
      \/ Recorder.detectBrowser userAgent = "Unknown")
  /\ (existsb (JSString.includes userAgent) Recorder.osPatterns = true
      \/ Recorder.detectOS userAgent = "Unknown")
  /\ Recorder.detectBrowser "" = "Unknown"
  /\ Recorder.detectOS "" = "Unknown".
Proof.
  unfold Recorder.detectBrowser, Recorder.detectOS,
    Recorder.browserVocabulary, Recorder.osVocabulary,
    Recorder.browserPatterns, Recorder.osPatterns.
  cbn [existsb In].
  repeat split.
  - repeat (match goal with
            | |- context [JSString.includes userAgent ?p] =>
                destruct (JSString.includes userAgent p)
            end); tauto.
  - repeat (match goal with
            | |- context [JSString.includes userAgent ?p] =>
                destruct (JSString.includes userAgent p)
            end); tauto.
  - repeat (match goal with
            | |- context [JSString.includes userAgent ?p] =>
                destruct (JSString.includes userAgent p)
            end); cbn; tauto.
  - repeat (match goal with
            | |- context [JSString.includes userAgent ?p] =>
                destruct (JSString.includes userAgent p)
            end); cbn; tauto.
Qed.

(** ** The recorder: bounded retries *)

Section RetryLoop.

Import Recorder.

Variable env : Env.

Lemma iteration_accepted (retries' : nat) (record : VisitorLog) (w : World) :
  insertOutcome env (inserts w) = InsertAccepted ->
  storeWithRetries env (S retries') record w
  = (Eff.Returns tt, afterAccepted record w).
Proof.
  intros H. cbn [storeWithRetries].
  unfold Eff.bind, Eff.try_catch, insert. rewrite H. reflexivity.
Qed.

Lemma iteration_failed (retries' : nat) (record : VisitorLog) (w : World) :
  insertOutcome env (inserts w) <> InsertAccepted ->
  storeWithRetries env (S retries') record w
  = storeWithRetries env retries' record (afterFailed retries' w).
Proof.
  intros H. cbn [storeWithRetries].
  unfold Eff.bind, Eff.try_catch, insert.
  destruct (insertOutcome env (inserts w)) eqn:Ho; [congruence| |];
    cbn; destruct (retries' =? 0)%nat eqn:Hr; cbn;
    unfold afterFailed; rewrite Hr; reflexivity.
Qed.

Lemma accepted_or_not (o : InsertOutcome) :
  o = InsertAccepted \/ o <> InsertAccepted.
Proof. destruct o; [left; reflexivity | right; discriminate ..]. Qed.

(** The loop never throws, issues at most [retries] inserts, never changes
    the loading flag, and stores either nothing or the one record. *)
Lemma storeWithRetries_returns (retries : nat) (record : VisitorLog) (w : World) :
  let r := storeWithRetries env retries record w in
  fst r = Eff.Returns tt
  /\ isLoading (snd r) = isLoading w
  /\ inserts w <= inserts (snd r) <= inserts w + retries
  /\ (visitor_logs (snd r) = visitor_logs w
      \/ visitor_logs (snd r) = (visitor_logs w ++ [record])%list).
Proof.
  revert w. induction retries as [|n IH]; intros w.
  - cbn. repeat split; auto; lia.
  - destruct (accepted_or_not (insertOutcome env (inserts w))) as [Ha|Hf].
    + rewrite (iteration_accepted _ _ _ Ha). cbn. repeat split; auto; lia.
    + rewrite (iteration_failed _ _ _ Hf).
      destruct (IH (afterFailed n w)) as (H1 & H2 & H3 & H4).
      cbn zeta. cbn in H2, H3, H4. repeat split; auto; lia.
Qed.

(** If the first [k] inserts fail and the next one is accepted, with
    [k < retries], the record is stored by insert number [k + 1] and the
    loop stops there. *)
Lemma storeWithRetries_first_success
  (retries k : nat) (record : VisitorLog) (w : World) :
  k < retries ->
  (forall j, j < k -> insertOutcome env (inserts w + j) <> InsertAccepted) ->
  insertOutcome env (inserts w + k) = InsertAccepted ->
  let r := storeWithRetries env retries record w in
  inserts (snd r) = inserts w + k + 1
  /\ visitor_logs (snd r) = (visitor_logs w ++ [record])%list.
Proof.
  revert k w. induction retries as [|n IH]; intros k w Hk Hfail Hok; [lia|].
  destruct k as [|k].
  - rewrite Nat.add_0_r in Hok. rewrite (iteration_accepted _ _ _ Hok).
    cbn. split; [lia | reflexivity].
  - assert (insertOutcome env (inserts w) <> InsertAccepted) as Hf.
    { specialize (Hfail 0 ltac:(lia)). now rewrite Nat.add_0_r in Hfail. }
    rewrite (iteration_failed _ _ _ Hf).
    destruct (IH k (afterFailed n w)) as [H1 H2].
    + lia.
    + intros j Hj. specialize (Hfail (S j) ltac:(lia)).
      now replace (inserts (afterFailed n w) + j) with (inserts w + S j)
        by (cbn; lia).
    + now replace (inserts (afterFailed n w) + k) with (inserts w + S k)
        by (cbn; lia).
    + cbn zeta. cbn in H1, H2. split; [lia | exact H2].
Qed.

(** If the first [retries] inserts all fail, the loop gives up after
    exactly [retries] of them and stores nothing, whatever a further
    insert would have answered. *)
Lemma storeWithRetries_exhausted (retries : nat) (record : VisitorLog) (w : World) :
  (forall j, j < retries ->
             insertOutcome env (inserts w + j) <> InsertAccepted) ->
  let r := storeWithRetries env retries record w in
  inserts (snd r) = inserts w + retries
  /\ visitor_logs (snd r) = visitor_logs w.
Proof.
  revert w. induction retries as [|n IH]; intros w Hfail.
  - cbn. split; [lia | reflexivity].
  - assert (insertOutcome env (inserts w) <> InsertAccepted) as Hf.
    { specialize (Hfail 0 ltac:(lia)). now rewrite Nat.add_0_r in Hfail. }
    rewrite (iteration_failed _ _ _ Hf).
    destruct (IH (afterFailed n w)) as [H1 H2].
    + intros j Hj. specialize (Hfail (S j) ltac:(lia)).
      now replace (inserts (afterFailed n w) + j) with (inserts w + S j)
        by (cbn; lia).
    + cbn zeta. cbn in H1, H2. split; [lia | exact H2].
Qed.

End RetryLoop.

(** C1, as stated, fails: when three inserts are refused and a fourth would
    be accepted, [logVisitorInfo] returns after three inserts with the table
    still empty; the fourth insert is never issued, so the record is not
    stored "on the 4th attempt". *)
Lemma fourth_attempt_is_never_made :
  let r := Recorder.logVisitorInfo threeRefusalsEnv false Recorder.initialWorld in
  (forall j, j < 3 ->
     Recorder.insertOutcome threeRefusalsEnv j <> Recorder.InsertAccepted)
  /\ Recorder.insertOutcome threeRefusalsEnv 3 = Recorder.InsertAccepted
  /\ fst r = Eff.Returns tt
  /\ Recorder.inserts (snd r) = 3
  /\ Recorder.visitor_logs (snd r) = []
  /\ ~ (Recorder.inserts (snd r) = 4
        /\ Recorder.visitor_logs (snd r) = [threeRefusalsRecord]).
Proof.
  cbv zeta. split; [|split; [|split; [|split; [|split]]]].
  - intros j Hj. cbn. unfold refuseThenAccept.
    destruct (Nat.ltb_spec j 3); [discriminate | lia].
  - reflexivity.
  - vm_compute. reflexivity.
  - vm_compute. reflexivity.
  - vm_compute. reflexivity.
  - intros [H _]. vm_compute in H. discriminate.
Qed.

(** C1, amended. The append step issues at most three inserts and never
    throws. If insert number [k + 1 <= 3] is the first that the store
    accepts, the record is stored by that insert and no further insert is
    issued. If the first three inserts all fail, the step gives up after
    exactly three inserts and stores nothing, whatever a fourth insert
    would have answered. *)
Theorem append_step_three_attempts
  (env : Recorder.Env) (record : Recorder.VisitorLog) (w : Recorder.World) :
  let r := Recorder.storeWithRetries env 3 record w in
  fst r = Eff.Returns tt
  /\ Recorder.inserts (snd r) <= Recorder.inserts w + 3
  /\ (forall k, k < 3 ->
        (forall j, j < k ->
           Recorder.insertOutcome env (Recorder.inserts w + j)
           <> Recorder.InsertAccepted) ->
        Recorder.insertOutcome env (Recorder.inserts w + k)
        = Recorder.InsertAccepted ->
        Recorder.inserts (snd r) = Recorder.inserts w + k + 1
        /\ Recorder.visitor_logs (snd r)
           = (Recorder.visitor_logs w ++ [record])%list)
  /\ ((forall j, j < 3 ->
         Recorder.insertOutcome env (Recorder.inserts w + j)
         <> Recorder.InsertAccepted) ->
      Recorder.inserts (snd r) = Recorder.inserts w + 3
      /\ Recorder.visitor_logs (snd r) = Recorder.visitor_logs w).
Proof.
  cbv zeta.
  destruct (storeWithRetries_returns env 3 record w) as (H1 & _ & H3 & _).
  split; [exact H1|]. split; [lia|]. split.
  - intros k Hk Hfail Hok.
    exact (storeWithRetries_first_success env 3 k record w Hk Hfail Hok).
  - intros Hfail. exact (storeWithRetries_exhausted env 3 record w Hfail).
Qed.

(** ** The recorder: nothing escapes [logVisitorInfo] *)

Section NothingEscapes.

Import Recorder.

Variable env : Env.

Lemma reportFailure_returns (error : Eff.Thrown) (w : World) :
  fst (reportFailure error w) = Eff.Returns tt
  /\ isLoading (snd (reportFailure error w)) = isLoading w
  /\ visitor_logs (snd (reportFailure error w)) = visitor_logs w.
Proof.
  unfold reportFailure.
  destruct (Eff.isError error && bool_decide (Eff.name error = "AbortError"));
    cbn; auto.
Qed.

(** Whatever the lookup and the store answer, a call that passes the guard
    returns normally with the loading flag down. *)
Lemma logVisitorInfo_running (w : World) :
  fst (logVisitorInfo env false w) = Eff.Returns tt
  /\ isLoading (snd (logVisitorInfo env false w)) = false.
Proof.
  unfold logVisitorInfo, Eff.bind, Eff.try_finally, Eff.try_catch.
  cbn [setIsLoading Eff.modify].
  destruct (lookupAndStore env _) as [[[]|e] w1].
  - cbn. auto.
  - destruct (reportFailure_returns e w1) as (H1 & _).
    destruct (reportFailure e w1) as [res w2]. cbn in H1. subst res.
    cbn. auto.
Qed.

(** A lookup that fails costs one line on the console and nothing else:
    no insert is issued and the table is as it was. *)
Lemma lookup_failure_only_logs (e : Eff.Thrown) (w : World) :
  fetchIp env = FetchRejects e ->
  snd (logVisitorInfo env false w)
  = {| isLoading := false;
       console :=
         (console w ++
          [if Eff.isError e && bool_decide (Eff.name e = "AbortError")
           then Eff.ConsoleLog "Request timed out"
           else Eff.ConsoleError "Failed to log visitor info:"])%list;
       visitor_logs := visitor_logs w;
       inserts := inserts w;
       pauses := pauses w |}.
Proof.
  intros Hfetch.
  unfold logVisitorInfo, Eff.bind, Eff.try_finally, Eff.try_catch,
    lookupAndStore, fetchIpify, reportFailure.
  rewrite Hfetch. cbn.
  destruct (Eff.isError e && bool_decide (Eff.name e = "AbortError"));
    reflexivity.
Qed.

(** So does an answer with a bad status. *)
Lemma bad_status_only_logs (json : JsonOutcome) (w : World) :
  fetchIp env = FetchResolves false json ->
  snd (logVisitorInfo env false w)
  = {| isLoading := false;
       console :=
         (console w ++ [Eff.ConsoleError "Failed to log visitor info:"])%list;
       visitor_logs := visitor_logs w;
       inserts := inserts w;
       pauses := pauses w |}.
Proof.
  intros Hfetch.
  unfold logVisitorInfo, Eff.bind, Eff.try_finally, Eff.try_catch,
    lookupAndStore, fetchIpify, reportFailure.
  rewrite Hfetch. reflexivity.
Qed.

End NothingEscapes.

(** The retry loop and a whole call, in closed form. *)

Section ClosedForm.

Import Recorder.

Variable env : Env.

Lemma world_eq (a b : bool) (c1 c2 : list Eff.ConsoleEntry)
  (l1 l2 : list VisitorLog) (i1 i2 p1 p2 : nat) :
  a = b -> c1 = c2 -> l1 = l2 -> i1 = i2 -> p1 = p2 ->
  {| isLoading := a; console := c1; visitor_logs := l1;
     inserts := i1; pauses := p1 |}
  = {| isLoading := b; console := c2; visitor_logs := l2;
       inserts := i2; pauses := p2 |}.
Proof. intros. subst. reflexivity. Qed.

(** The retry loop in closed form, for any starting value of [retries]. *)
Lemma storeWithRetries_closed_form (n : nat) (record : VisitorLog) (w : World) :
  storeWithRetries env n record w
  = (Eff.Returns tt, afterRetries env n record w).
Proof.
  revert w. induction n as [|n IH]; intros w.
  - cbn. f_equal. destruct w. unfold afterRetries. cbn.
    apply world_eq; auto using app_nil_r with arith.
  - destruct (accepted_or_not (insertOutcome env (inserts w))) as [Ha|Hf].
    + rewrite (iteration_accepted env _ _ _ Ha). f_equal.
      unfold afterRetries, afterAccepted. cbn [failuresFirst].
      rewrite Ha. cbn. apply world_eq; auto; lia.
    + rewrite (iteration_failed env _ _ _ Hf), IH. f_equal.
      unfold afterRetries. cbn [failuresFirst].
      destruct (insertOutcome env (inserts w)) eqn:Ho; [congruence| |];
        cbn [afterFailed isLoading console visitor_logs inserts pauses];
        change (S (failuresFirst env (S (inserts w)) n) <? S n)%nat
          with (failuresFirst env (S (inserts w)) n <? n)%nat;
        destruct (failuresFirst env (S (inserts w)) n <? n)%nat eqn:Hs;
        destruct n as [|n]; cbn [Nat.eqb Nat.ltb Nat.leb];
        try (apply Nat.ltb_lt in Hs; lia);
        apply world_eq; auto; try lia;
        now rewrite <- ?app_assoc, ?app_nil_r.
Qed.

End ClosedForm.

Section CallByCall.

Import Recorder.

Variable env : Env.

Lemma failuresFirst_bound (from n : nat) : failuresFirst env from n <= n.
Proof.
  revert from. induction n as [|n IH]; intros from; cbn; [lia|].
  destruct (insertOutcome env from); [lia | |]; specialize (IH (S from)); lia.
Qed.

(** One of the [n] inserts from number [from] on is accepted exactly when
    fewer than [n] of them fail first. *)
Lemma failuresFirst_stored (from n : nat) :
  (failuresFirst env from n <? n)%nat = true
  <-> exists k, k < n /\ insertOutcome env (from + k) = InsertAccepted.
Proof.
  revert from. induction n as [|n IH]; intros from.
  - cbn. split; [discriminate | intros (k & Hk & _); lia].
  - cbn [failuresFirst].
    destruct (accepted_or_not (insertOutcome env from)) as [Ha|Hf].
    + rewrite Ha. split; [intros _ | reflexivity].
      exists 0. rewrite Nat.add_0_r. split; [lia | exact Ha].
    + assert (match insertOutcome env from with
              | InsertAccepted => 0
              | _ => S (failuresFirst env (S from) n)
              end = S (failuresFirst env (S from) n)) as ->
        by (destruct (insertOutcome env from); congruence).
      change (S (failuresFirst env (S from) n) <? S n)%nat
        with (failuresFirst env (S from) n <? n)%nat.
      rewrite IH. split; intros (k & Hk & Hok).
      * exists (S k). split; [lia|].
        now replace (from + S k) with (S from + k) by lia.
      * destruct k as [|k].
        -- rewrite Nat.add_0_r in Hok. contradiction.
        -- exists k. split; [lia|].
           now replace (S from + k) with (from + S k) by lia.
Qed.

(** A call whose lookup succeeds, in closed form. *)
Lemma logVisitorInfo_after_lookup (w : World) :
  lookupFails env = false ->
  logVisitorInfo env false w
  = (Eff.Returns tt,
     let w' := afterRetries env 3 (recordOf env) w in
     {| isLoading := false; console := console w';
        visitor_logs := visitor_logs w';
        inserts := inserts w'; pauses := pauses w' |}).
Proof.
  intros Hok.
  unfold logVisitorInfo, Eff.bind, Eff.try_finally, Eff.try_catch,
    lookupAndStore, fetchIpify, readIp, Eff.bind.
  unfold lookupFails in Hok. unfold recordOf.
  destruct (fetchIp env) as [e|[|] [[|address|]|e]]; try discriminate;
    cbn [setIsLoading Eff.modify Eff.ret Eff.throw fst snd negb];
    rewrite storeWithRetries_closed_form; reflexivity.
Qed.

(** A call whose lookup fails, in closed form. *)
Lemma logVisitorInfo_after_failed_lookup (w : World) :
  lookupFails env = true ->
  exists entry,
    logVisitorInfo env false w
    = (Eff.Returns tt,
       {| isLoading := false;
          console := (console w ++ [entry])%list;
          visitor_logs := visitor_logs w;
          inserts := inserts w;
          pauses := pauses w |}).
Proof.
  intros Hfail.
  unfold logVisitorInfo, Eff.bind, Eff.try_finally, Eff.try_catch,
    lookupAndStore, fetchIpify, readIp, reportFailure, Eff.bind.
  unfold lookupFails in Hfail.
  destruct (fetchIp env) as [e|[|] [[|address|]|e]]; try discriminate;
    cbn [setIsLoading Eff.modify Eff.ret Eff.throw fst snd negb];
    match goal with
    | |- context [if ?c then console_log _ else console_error _] =>
        destruct c
    end; cbn; eexists; reflexivity.
Qed.

End CallByCall.

(** A call that passes the guard, by how it ends: with the line of its
    error on the console and the table as it was, or with the success line
    and the record at the end of the table. *)
Lemma logVisitorInfo_outcome (env : Recorder.Env) (w : Recorder.World) :
  let r := snd (Recorder.logVisitorInfo env false w) in
  match failureLine env (Recorder.inserts w) with
  | Some line =>
      Recorder.console r = (Recorder.console w ++ [line])%list
      /\ Recorder.visitor_logs r = Recorder.visitor_logs w
  | None =>
      Recorder.console r
      = (Recorder.console w
         ++ [Eff.ConsoleLog "Successfully logged visitor:"])%list
      /\ Recorder.visitor_logs r
         = (Recorder.visitor_logs w ++ [recordOf env])%list
  end.
Proof.
  cbv zeta. destruct (lookupFails env) eqn:Hlookup.
  - unfold failureLine, lookupError. unfold lookupFails in Hlookup.
    unfold Recorder.logVisitorInfo, Eff.bind, Eff.try_finally, Eff.try_catch,
      Recorder.lookupAndStore, Recorder.fetchIpify, Recorder.readIp,
      Recorder.reportFailure, Eff.bind.
    destruct (Recorder.fetchIp env) as [e|[|] [[|address|]|e]];
      try discriminate;
      cbn [Recorder.setIsLoading Eff.modify Eff.ret Eff.throw fst snd negb];
      try match goal with
          | |- context [if ?c then Recorder.console_log _
                        else Recorder.console_error _] => destruct c
          end; cbn; split; reflexivity.
  - rewrite (logVisitorInfo_after_lookup env w Hlookup).
    unfold failureLine, lookupError. unfold lookupFails in Hlookup.
    destruct (Recorder.fetchIp env) as [e|[|] [[|address|]|e]];
      try discriminate;
      cbn [snd Recorder.console Recorder.visitor_logs afterRetries];
      destruct (failuresFirst env (Recorder.inserts w) 3 <? 3)%nat;
      split; reflexivity.
Qed.

(** C8. Whatever its environment answers (the address lookup times out,
    fails or answers with a bad status, the JSON body does not parse or is
    [null], the store refuses every insert), [logVisitorInfo] returns
    normally: nothing is thrown to the caller. A call that passes the
    re-entrancy guard leaves the loading flag down on every path, and an
    error is absorbed by logging it, and only by that: a call that ends in
    an error writes the one line of that error to the console and leaves
    the table as it was, and a call without one writes the success line and
    adds its record. A call stopped by the guard changes nothing. *)
Theorem logVisitorInfo_never_throws
  (env : Recorder.Env) (isLoadingSeen : bool) (w : Recorder.World) :
  let r := snd (Recorder.logVisitorInfo env false w) in
  fst (Recorder.logVisitorInfo env isLoadingSeen w) = Eff.Returns tt
  /\ Recorder.isLoading r = false
  /\ snd (Recorder.logVisitorInfo env true w) = w
  /\ match failureLine env (Recorder.inserts w) with
     | Some line =>
         Recorder.console r = (Recorder.console w ++ [line])%list
         /\ Recorder.visitor_logs r = Recorder.visitor_logs w
     | None =>
         Recorder.console r
         = (Recorder.console w
            ++ [Eff.ConsoleLog "Successfully logged visitor:"])%list
         /\ Recorder.visitor_logs r
            = (Recorder.visitor_logs w ++ [recordOf env])%list
     end.
Proof.
  cbv zeta. destruct (logVisitorInfo_running env w) as [H1 H2].
  split; [|split; [exact H2 | split; [reflexivity|]]].
  - destruct isLoadingSeen; [reflexivity | exact H1].
  - exact (logVisitorInfo_outcome env w).
Qed.

(** The errors of the claim, one by one, each with the line it leaves. *)
Example errors_and_their_lines :
  failureLine lookupTimesOutEnv 0 = Some (Eff.ConsoleLog "Request timed out")
  /\ failureLine threeRefusalsEnv 0
     = Some (Eff.ConsoleError
               "Failed to store visitor info after all retries:")
  /\ failureLine oneRefusalEnv 0 = None.
Proof. repeat split. Qed.

(** ** Dates: the calendar and local midnight *)

Section Calendar.

Import JSDate.

Local Open Scope Z_scope.

(** [YearFromTime] is the year in which the day of [t] falls. *)
Lemma YearFromTime_spec (t : Z) :
  DayFromYear (YearFromTime t) <= Day t < DayFromYear (YearFromTime t + 1).
Proof.
  unfold YearFromTime. cbv zeta. generalize (Day t) as d. intros d.
  destruct (Z.ltb_spec d (DayFromYear (1970 + d * 400 / 146097))) as [H1|H1].
  - revert H1. unfold DayFromYear. intros H1.
    Z.div_mod_to_equations. lia.
  - destruct (Z.leb_spec (DayFromYear (1970 + d * 400 / 146097 + 1)) d)
      as [H2|H2].
    + revert H1 H2. unfold DayFromYear. intros H1 H2.
      Z.div_mod_to_equations. lia.
    + split; [assumption | lia].
Qed.

Lemma DayFromYear_mono (y1 y2 : Z) :
  y1 <= y2 -> DayFromYear y1 <= DayFromYear y2.
Proof. unfold DayFromYear. intros H. Z.div_mod_to_equations. lia. Qed.

(** It is the largest year that starts at or before [t], as the standard
    defines it. *)
Lemma YearFromTime_largest (t y : Z) :
  TimeFromYear y <= t <-> y <= YearFromTime t.
Proof.
  pose proof (YearFromTime_spec t) as [Hlo Hhi].
  unfold TimeFromYear, Day, msPerDay in *.
  split; intros H.
  - destruct (Z_le_gt_dec y (YearFromTime t)) as [|Hgt]; [assumption|].
    exfalso.
    pose proof (DayFromYear_mono (YearFromTime t + 1) y ltac:(lia)).
    assert (DayFromYear y <= t / 86400000)
      by (apply Z.div_le_lower_bound; lia).
    lia.
  - pose proof (DayFromYear_mono y (YearFromTime t) H).
    pose proof (Z.mul_div_le t 86400000 ltac:(lia)). lia.
Qed.

Lemma YearFromTime_since_1969 (t : Z) :
  - msPerDay <= t -> 1969 <= YearFromTime t.
Proof.
  intros Ht. pose proof (YearFromTime_spec t) as [_ Hhi].
  assert (-1 <= Day t) as Hd.
  { unfold Day, msPerDay in *. apply Z.div_le_lower_bound; lia. }
  destruct (Z_le_gt_dec 1969 (YearFromTime t)) as [|Hgt]; [assumption|].
  exfalso.
  pose proof (DayFromYear_mono (YearFromTime t + 1) 1969 ltac:(lia)) as Hm.
  change (DayFromYear 1969) with (-365) in Hm. lia.
Qed.

Lemma MonthFromTime_range (t : Z) : 0 <= MonthFromTime t <= 11.
Proof.
  unfold MonthFromTime. cbv zeta.
  repeat (match goal with
          | |- context [if ?c then _ else _] => destruct c
          end); lia.
Qed.

(** Getting the local year, month and day of an instant and assembling
    them again gives the day number back. *)
Lemma MakeDay_of_fields (t : Z) :
  MakeDay (YearFromTime t) (MonthFromTime t) (DateFromTime t) = Day t.
Proof.
  pose proof (MonthFromTime_range t) as Hm.
  unfold MakeDay. cbv zeta.
  rewrite (Z.div_small (MonthFromTime t) 12) by lia.
  rewrite (Z.mod_small (MonthFromTime t) 12) by lia.
  rewrite Z.add_0_r.
  unfold DateFromTime. cbv zeta.
  fold (InLeapYear t).
  unfold DayWithinYear.
  generalize (InLeapYear t) as leap. intros leap.
  generalize dependent (MonthFromTime t). intros m Hm.
  assert (m = 0 \/ m = 1 \/ m = 2 \/ m = 3 \/ m = 4 \/ m = 5 \/ m = 6
          \/ m = 7 \/ m = 8 \/ m = 9 \/ m = 10 \/ m = 11) as Hcases by lia.
  repeat (destruct Hcases as [->|Hcases]); try subst m;
    cbn [daysBeforeMonth]; lia.
Qed.

Lemma DayFromYear_next (y : Z) :
  DayFromYear (y + 1) = DayFromYear y + DaysInYear y.
Proof.
  unfold DayFromYear, DaysInYear.
  destruct (Z.eqb_spec (y mod 4) 0) as [H4|H4];
    destruct (Z.eqb_spec (y mod 100) 0) as [H100|H100];
    destruct (Z.eqb_spec (y mod 400) 0) as [H400|H400];
    cbn [negb]; Z.div_mod_to_equations; lia.
Qed.

Lemma YearFromTime_unique (t y : Z) :
  DayFromYear y <= Day t < DayFromYear (y + 1) -> YearFromTime t = y.
Proof.
  intros [Hlo Hhi]. pose proof (YearFromTime_spec t) as [Hlo' Hhi'].
  destruct (Z.lt_trichotomy (YearFromTime t) y) as [Hlt|[Heq|Hgt]];
    [exfalso | exact Heq | exfalso].
  - pose proof (DayFromYear_mono (YearFromTime t + 1) y ltac:(lia)). lia.
  - pose proof (DayFromYear_mono (y + 1) (YearFromTime t) ltac:(lia)). lia.
Qed.

(** [MakeDay] meets its definition in the standard: the day it gives for
    the first of a month is the day of an instant whose year, month and day
    of the month are the ones asked for. *)
Lemma MakeDay_first_of_month (year month : Z) :
  0 <= month <= 11 ->
  let t := msPerDay * MakeDay year month 1 in
  YearFromTime t = year /\ MonthFromTime t = month /\ DateFromTime t = 1.
Proof.
  intros Hm. cbv zeta.
  assert (Day (msPerDay * MakeDay year month 1) = MakeDay year month 1) as Hday.
  { unfold Day, msPerDay. rewrite Z.mul_comm. now apply Z.div_mul. }
  assert (MakeDay year month 1
          = DayFromYear year
            + daysBeforeMonth month (if DaysInYear year =? 366 then 1 else 0))
    as Hmake.
  { unfold MakeDay. cbv zeta.
    rewrite (Z.div_small month 12), (Z.mod_small month 12) by lia.
    rewrite Z.add_0_r. lia. }
  assert (DaysInYear year = 365 \/ DaysInYear year = 366) as Hlen.
  { unfold DaysInYear.
    repeat (match goal with
            | |- context [if ?c then _ else _] => destruct c
            end); auto. }
  assert (YearFromTime (msPerDay * MakeDay year month 1) = year) as Hyear.
  { apply YearFromTime_unique. rewrite Hday, Hmake, DayFromYear_next.
    assert (month = 0 \/ month = 1 \/ month = 2 \/ month = 3 \/ month = 4
            \/ month = 5 \/ month = 6 \/ month = 7 \/ month = 8 \/ month = 9
            \/ month = 10 \/ month = 11) as Hcases by lia.
    destruct Hlen as [Hl|Hl]; rewrite Hl;
      repeat (destruct Hcases as [->|Hcases]); try subst month;
      cbn; lia. }
  assert (DayWithinYear (msPerDay * MakeDay year month 1)
          = daysBeforeMonth month (if DaysInYear year =? 366 then 1 else 0))
    as Hwithin.
  { unfold DayWithinYear. rewrite Hday, Hyear, Hmake. lia. }
  assert (MonthFromTime (msPerDay * MakeDay year month 1) = month) as Hmonth.
  { unfold MonthFromTime, InLeapYear. cbv zeta. rewrite Hwithin, Hyear.
    assert (month = 0 \/ month = 1 \/ month = 2 \/ month = 3 \/ month = 4
            \/ month = 5 \/ month = 6 \/ month = 7 \/ month = 8 \/ month = 9
            \/ month = 10 \/ month = 11) as Hcases by lia.
    destruct Hlen as [Hl|Hl]; rewrite Hl;
      repeat (destruct Hcases as [->|Hcases]); try subst month;
      reflexivity. }
  split; [exact Hyear|]. split; [exact Hmonth|].
  unfold DateFromTime, InLeapYear. cbv zeta. rewrite Hmonth, Hwithin, Hyear.
  assert (month = 0 \/ month = 1 \/ month = 2 \/ month = 3 \/ month = 4
          \/ month = 5 \/ month = 6 \/ month = 7 \/ month = 8 \/ month = 9
          \/ month = 10 \/ month = 11) as Hcases by lia.
  destruct Hlen as [Hl|Hl]; rewrite Hl;
    repeat (destruct Hcases as [->|Hcases]); try subst month;
    reflexivity.
Qed.

(** [setDate] with a day of the month that is seven less lands seven day
    numbers earlier. *)
Lemma MakeDay_minus_7 (year month date : Z) :
  MakeDay year month (date - 7) = MakeDay year month date - 7.
Proof. unfold MakeDay. cbv zeta. lia. Qed.

End Calendar.

(** ** Dates: the boundaries of the time windows *)

Section Boundaries.

Import JSDate.

Local Open Scope Z_scope.

Variable rt : Runtime.
Hypothesis Hhost : offsetsWithinADay rt.

Lemma LocalTime_near (t : Z) : t - msPerDay <= LocalTime rt t <= t + msPerDay.
Proof. unfold LocalTime. pose proof (Hhost t true). lia. Qed.

Lemma UTC_near (t : Z) : t - msPerDay <= UTC rt t <= t + msPerDay.
Proof. unfold UTC. pose proof (Hhost t false). lia. Qed.

Lemma Day_floor (t : Z) : t - msPerDay < msPerDay * Day t <= t.
Proof.
  unfold Day, msPerDay.
  pose proof (Z.mul_div_le t 86400000 ltac:(lia)).
  pose proof (Z.mul_succ_div_gt t 86400000 ltac:(lia)). lia.
Qed.

Lemma localMidnight_near (now : Z) :
  now - 3 * msPerDay < localMidnight rt now <= now + 2 * msPerDay.
Proof.
  unfold localMidnight.
  pose proof (LocalTime_near now).
  pose proof (Day_floor (LocalTime rt now)).
  pose proof (UTC_near (msPerDay * Day (LocalTime rt now))).
  lia.
Qed.

Lemma TimeClip_in_range (t : Z) :
  - maxTimeValue <= t <= maxTimeValue -> TimeClip t = Some t.
Proof.
  intros H. unfold TimeClip.
  destruct (Z.ltb_spec maxTimeValue (Z.abs t)); [lia | reflexivity].
Qed.

(** [new Date(now.getFullYear(), now.getMonth(), now.getDate())] is local
    midnight of [now]. Both listings compute [today] by this expression. *)
Lemma today_is_local_midnight (now : Z) :
  clockInRange now ->
  newDateYMD rt (getFullYear rt (Some now)) (getMonth rt (Some now))
    (getDate rt (Some now))
  = Some (localMidnight rt now).
Proof.
  intros Hnow. unfold clockInRange in Hnow.
  unfold newDateYMD, getFullYear, getMonth, getDate. cbn [mbind option_bind].
  pose proof (LocalTime_near now) as Hlt.
  pose proof (YearFromTime_since_1969 (LocalTime rt now) ltac:(lia)) as Hy.
  destruct (Z.leb_spec (YearFromTime (LocalTime rt now)) 99) as [|_];
    [lia|]. rewrite andb_false_r.
  rewrite MakeDay_of_fields.
  replace (MakeDate (Day (LocalTime rt now)) (MakeTime 0 0 0 0))
    with (msPerDay * Day (LocalTime rt now))
    by (unfold MakeDate, MakeTime; lia).
  fold (localMidnight rt now).
  apply TimeClip_in_range.
  pose proof (localMidnight_near now).
  unfold msPerDay, maxTimeValue in *. lia.
Qed.

(** [weekAgo.setDate(weekAgo.getDate() - 7)] from local midnight. *)
Lemma setDate_minus_7 (now : Z) :
  clockInRange now ->
  let today := Some (localMidnight rt now) in
  setDate rt today ((fun date => date - 7) <$> getDate rt today)
  = Some (sevenCalendarDaysBefore rt (localMidnight rt now)).
Proof.
  intros Hnow. unfold clockInRange in Hnow. cbv zeta.
  unfold setDate, getDate. cbn [mbind option_bind fmap option_fmap option_map].
  set (t := LocalTime rt (localMidnight rt now)).
  rewrite MakeDay_minus_7, MakeDay_of_fields.
  replace (MakeDate (Day t - 7) (TimeWithinDay t)) with (t - 7 * msPerDay).
  2:{ unfold MakeDate, Day, TimeWithinDay.
      pose proof (Z.div_mod t msPerDay ltac:(unfold msPerDay; lia)). lia. }
  fold (sevenCalendarDaysBefore rt (localMidnight rt now)).
  apply TimeClip_in_range.
  unfold sevenCalendarDaysBefore. fold t.
  pose proof (localMidnight_near now).
  pose proof (LocalTime_near (localMidnight rt now)). fold t in H0.
  pose proof (UTC_near (t - 7 * msPerDay)).
  unfold msPerDay, maxTimeValue in *. lia.
Qed.

Lemma sevenCalendarDaysBefore_near (t : Z) :
  t - 9 * msPerDay <= sevenCalendarDaysBefore rt t <= t - 5 * msPerDay.
Proof.
  unfold sevenCalendarDaysBefore.
  pose proof (LocalTime_near t).
  pose proof (UTC_near (LocalTime rt t - 7 * msPerDay)). lia.
Qed.

(** [new Date(today.getTime() - 7 * 24 * 60 * 60 * 1000)] from local
    midnight. *)
Lemma week_of_milliseconds (now : Z) :
  clockInRange now ->
  newDateOfNumber
    ((fun t => t - 7 * 24 * 60 * 60 * 1000) <$> getTime (Some (localMidnight rt now)))
  = Some (localMidnight rt now - 7 * 24 * 60 * 60 * 1000).
Proof.
  intros Hnow. unfold clockInRange in Hnow.
  unfold newDateOfNumber, getTime.
  cbn [mbind option_bind fmap option_fmap option_map].
  apply TimeClip_in_range.
  pose proof (localMidnight_near now).
  unfold msPerDay, maxTimeValue in *. lia.
Qed.

End Boundaries.

(** Where the offset of local time is the same at both ends, seven calendar
    days are 7 x 24 hours. *)
Lemma sevenCalendarDaysBefore_same_offset (rt : JSDate.Runtime) (t : Z) :
  JSDate.LocalTZA rt (JSDate.LocalTime rt t - 7 * JSDate.msPerDay) false
  = JSDate.LocalTZA rt t true ->
  sevenCalendarDaysBefore rt t = (t - 7 * 24 * 60 * 60 * 1000)%Z.
Proof.
  intros H. unfold sevenCalendarDaysBefore, JSDate.UTC. rewrite H.
  unfold JSDate.LocalTime, JSDate.msPerDay. lia.
Qed.

(** On a host with one fixed offset the two week boundaries agree. *)
Lemma fixed_offset_week (offset t : Z) :
  sevenCalendarDaysBefore (JSDate.fixedOffsetHost offset) t
  = (t - 7 * 24 * 60 * 60 * 1000)%Z.
Proof. now apply sevenCalendarDaysBefore_same_offset. Qed.

Example utc_week_boundaries :
  StatsPage.weekAgoOf JSDate.utcHost (StatsPage.todayOf JSDate.utcHost noonAfterDst)
  = StatsPageEarlier.lastWeekOf
      (StatsPageEarlier.todayOf JSDate.utcHost noonAfterDst)
  /\ StatsPage.todayOf JSDate.utcHost noonAfterDst
     = JSDate.parseISO "2026-03-10T00:00:00.000Z".
Proof. split; vm_compute; reflexivity. Qed.

(** ** Counting *)

Section Counting.

Context {A : Type}.

Lemma filter_length_bound (p : A -> bool) (l : list A) :
  length (List.filter p l) <= length l.
Proof. induction l as [|x l IH]; cbn; [lia | destruct (p x); cbn; lia]. Qed.

Lemma filter_length_mono (p q : A -> bool) (l : list A) :
  (forall x, p x = true -> q x = true) ->
  length (List.filter p l) <= length (List.filter q l).
Proof.
  intros Hpq. induction l as [|x l IH]; cbn; [lia|].
  destruct (p x) eqn:Hp.
  - rewrite (Hpq x Hp). cbn. lia.
  - destruct (q x); cbn; lia.
Qed.

Lemma filter_length_map {B : Type} (f : A -> B) (p : B -> bool) (l : list A) :
  length (List.filter (fun x => p (f x)) l)
  = length (List.filter p (List.map f l)).
Proof.
  induction l as [|x l IH]; cbn; [reflexivity|].
  destruct (p (f x)); cbn; now rewrite IH.
Qed.


End Counting.

(** ** Objects as dictionaries *)

Section Properties.

Import JSObject.

Context {V : Type}.

Lemma own_app (o1 o2 : Properties V) (key : string) :
  own (o1 ++ o2)%list key
  = match own o1 key with
    | Some v => Some v
    | None => own o2 key
    end.
Proof.
  induction o1 as [|[k x] o1 IH]; cbn; [reflexivity|].
  destruct (String.eqb k key); [reflexivity | exact IH].
Qed.

Lemma own_update (o : Properties V) (key : string) (v : V) (other : string) :
  own (update o key v) other
  = if String.eqb key other
    then match own o key with
         | Some _ => Some v
         | None => None
         end
    else own o other.
Proof.
  induction o as [|[k x] o IH]; cbn.
  - destruct (String.eqb key other); reflexivity.
  - destruct (String.eqb_spec k key) as [->|Hk]; cbn.
    + destruct (String.eqb key other); reflexivity.
    + rewrite IH. destruct (String.eqb_spec k other) as [->|Hko];
        [|reflexivity].
      destruct (String.eqb_spec key other) as [->|_]; [congruence|reflexivity].
Qed.

(** A new property goes somewhere between the properties that are there. *)
Lemma add_splits (o : Properties V) (key : string) (v : V) :
  exists o1 o2, o = (o1 ++ o2)%list /\ add o key v = (o1 ++ (key, v) :: o2)%list.
Proof.
  unfold add. destruct (arrayIndex key) as [i|].
  - induction o as [|[k x] o (o1 & o2 & Ho & Hadd)]; cbn.
    + exists [], []. auto.
    + destruct (arrayIndex k) as [j|].
      * destruct (j <? i)%Z.
        -- exists ((k, x) :: o1), o2. cbn. rewrite Hadd, <- Ho. auto.
        -- exists [], ((k, x) :: o). auto.
      * exists [], ((k, x) :: o). auto.
  - exists o, []. now rewrite app_nil_r.
Qed.

Lemma own_add (o : Properties V) (key : string) (v : V) (other : string) :
  own o key = None ->
  own (add o key v) other = if String.eqb key other then Some v else own o other.
Proof.
  intros Hfresh. destruct (add_splits o key v) as (o1 & o2 & Ho & ->).
  subst o. rewrite own_app in Hfresh. rewrite !own_app. cbn.
  destruct (String.eqb_spec key other) as [<-|_].
  - destruct (own o1 key); [discriminate | reflexivity].
  - reflexivity.
Qed.

(** After [{ ...o, [key]: v }] the object holds [v] under [key] and what
    [o] held under any other key. *)
Lemma own_define (o : Properties V) (key : string) (v : V) (other : string) :
  own (define o key v) other
  = if String.eqb key other then Some v else own o other.
Proof.
  unfold define. destruct (own o key) as [x|] eqn:Hkey.
  - rewrite own_update, Hkey. reflexivity.
  - now apply own_add.
Qed.

(** After [o[key] = v] it does so too, except under [__proto__]. *)
Lemma own_set (o : Properties V) (key : string) (v : V) (other : string) :
  own (set o key v) other
  = if String.eqb key other
    then match own o key, objectPrototype key with
         | None, Some ProtoAccessor => None
         | _, _ => Some v
         end
    else own o other.
Proof.
  unfold set. destruct (own o key) as [x|] eqn:Hkey.
  - rewrite own_update, Hkey. reflexivity.
  - destruct (objectPrototype key) as [[|]|]; try now apply own_add.
    destruct (String.eqb_spec key other) as [<-|_]; [exact Hkey | reflexivity].
Qed.







End Properties.

(** ** The counters of a grouping *)

Section Increment.

Import JSObject Stats.







(** What a grouping holds under [key] after one more row that carries it,
    and after a row that carries another key. *)
Lemma own_increment (counts : Counters) (key : string) (n : nat) :
  own counts key = counterAfter key n ->
  own (increment counts key) key = counterAfter key (S n).
Proof.
  unfold increment, get. intros Hown. rewrite own_set, String.eqb_refl, Hown.
  unfold counterAfter.
  destruct n as [|n]; destruct (objectPrototype key) as [[|]|]; cbn;
    try reflexivity.
  now rewrite Nat.add_1_r.
Qed.

Lemma own_increment_other (counts : Counters) (key other : string) :
  key <> other -> own (increment counts key) other = own counts other.
Proof.
  intros Hne. unfold increment. rewrite own_set.
  destruct (String.eqb_spec key other); [contradiction | reflexivity].
Qed.


End Increment.

(** ** The aggregation loop of each listing *)

Section LoopOfStatsPage.

Import JSDate Stats StatsPage.

Variable rt : Runtime.
Variables today weekAgo : Date.

(** What the [forEach] of [src/app/stats/page.tsx] leaves in its
    variables. *)
Lemma StatsPage_loop (logs : list VisitorLog) (acc : Tally) :
  let r := fold_left (visit rt today weekAgo) logs acc in
  todayCount r
  = todayCount acc
    + length (List.filter
                (fun log => date_ge (newDateOfString rt (timestamp log)) today)
                logs)
  /\ weekCount r
     = weekCount acc
       + length (List.filter
                   (fun log =>
                      date_ge (newDateOfString rt (timestamp log)) weekAgo)
                   logs).
Proof.
  revert acc. induction logs as [|log logs IH]; intros acc.
  - cbn. repeat split; lia.
  - cbn [fold_left List.filter length].
    destruct (IH (visit rt today weekAgo acc log)) as (H1 & H2).
    cbv zeta in *. rewrite H1, H2.
    cbn [visit todayCount weekCount].
    destruct (date_ge (newDateOfString rt (timestamp log)) today);
      destruct (date_ge (newDateOfString rt (timestamp log)) weekAgo);
      cbn [length]; repeat split; lia.
Qed.

End LoopOfStatsPage.

Section LoopOfStatsPageEarlier.

Import JSDate Stats StatsPageEarlier.

Variable rt : Runtime.
Variables today lastWeek : Date.

(** What the [forEach] of the earlier listing leaves in its variables. *)
Lemma StatsPageEarlier_loop (logs : list VisitorLog) (acc : Tally) :
  let r := fold_left (visit rt today lastWeek) logs acc in
  todayCount r
  = todayCount acc
    + length (List.filter
                (fun log => date_ge (newDateOfString rt (timestamp log)) today)
                logs)
  /\ weekCount r
     = weekCount acc
       + length (List.filter
                   (fun log =>
                      date_ge (newDateOfString rt (timestamp log)) lastWeek)
                   logs).
Proof.
  revert acc. induction logs as [|log logs IH]; intros acc.
  - cbn. repeat split; lia.
  - cbn [fold_left List.filter length].
    destruct (IH (visit rt today lastWeek acc log)) as (H1 & H2).
    cbv zeta in *. rewrite H1, H2.
    cbn [visit todayCount weekCount].
    destruct (date_ge (newDateOfString rt (timestamp log)) today);
      destruct (date_ge (newDateOfString rt (timestamp log)) lastWeek);
      cbn [length]; repeat split; lia.
Qed.

End LoopOfStatsPageEarlier.

(** Comparing a parsed timestamp with a valid date is [timestampAtOrAfter]. *)
Lemma date_ge_valid (rt : JSDate.Runtime) (bound : Z) (ts : string) :
  JSDate.date_ge (JSDate.newDateOfString rt ts) (Some bound)
  = timestampAtOrAfter rt bound ts.
Proof.
  unfold timestampAtOrAfter, JSDate.date_ge.
  destruct (JSDate.newDateOfString rt ts); reflexivity.
Qed.

(** The counters of both listings, for a valid [today] and week boundary. *)
Lemma StatsPage_counts (rt : JSDate.Runtime) (now : Z)
  (logs : list StatsPage.VisitorLog) :
  offsetsWithinADay rt -> clockInRange now ->
  StatsPage.todayVisits (StatsPage.calculateStats rt now logs)
  = visitsSince rt (JSDate.localMidnight rt now)
      (List.map StatsPage.timestamp logs)
  /\ StatsPage.lastWeekVisits (StatsPage.calculateStats rt now logs)
     = visitsSince rt
         (sevenCalendarDaysBefore rt (JSDate.localMidnight rt now))
         (List.map StatsPage.timestamp logs).
Proof.
  intros Hhost Hnow.
  unfold StatsPage.calculateStats. cbv zeta.
  cbn [StatsPage.todayVisits StatsPage.lastWeekVisits].
  unfold StatsPage.todayOf, StatsPage.weekAgoOf, JSDate.newDateCopy.
  cbv zeta.
  rewrite (today_is_local_midnight rt Hhost now Hnow).
  pose proof (setDate_minus_7 rt Hhost now Hnow) as Hweek.
  cbv zeta in Hweek. rewrite Hweek.
  destruct (StatsPage_loop rt (Some (JSDate.localMidnight rt now))
              (Some (sevenCalendarDaysBefore rt (JSDate.localMidnight rt now)))
              logs StatsPage.emptyTally) as (H1 & H2).
  cbv zeta in H1, H2. rewrite H1, H2. cbn [StatsPage.todayCount
    StatsPage.weekCount StatsPage.emptyTally]. unfold visitsSince.
  rewrite <- !filter_length_map.
  split; cbn [Nat.add]; f_equal;
    try (apply filter_ext; intros log; apply date_ge_valid).
Qed.

Lemma StatsPageEarlier_counts (rt : JSDate.Runtime) (now : Z)
  (logs : list StatsPageEarlier.VisitorLog) :
  offsetsWithinADay rt -> clockInRange now ->
  StatsPageEarlier.todayVisits (StatsPageEarlier.calculateStats rt now logs)
  = visitsSince rt (JSDate.localMidnight rt now)
      (List.map StatsPageEarlier.timestamp logs)
  /\ StatsPageEarlier.lastWeekVisits
       (StatsPageEarlier.calculateStats rt now logs)
     = visitsSince rt (JSDate.localMidnight rt now - 7 * 24 * 60 * 60 * 1000)%Z
         (List.map StatsPageEarlier.timestamp logs).
Proof.
  intros Hhost Hnow.
  unfold StatsPageEarlier.calculateStats. cbv zeta.
  cbn [StatsPageEarlier.todayVisits StatsPageEarlier.lastWeekVisits].
  unfold StatsPageEarlier.todayOf, StatsPageEarlier.lastWeekOf. cbv zeta.
  rewrite (today_is_local_midnight rt Hhost now Hnow).
  rewrite (week_of_milliseconds rt Hhost now Hnow).
  destruct (StatsPageEarlier_loop rt (Some (JSDate.localMidnight rt now))
              (Some (JSDate.localMidnight rt now - 7 * 24 * 60 * 60 * 1000)%Z)
              logs StatsPageEarlier.emptyTally) as (H1 & H2).
  cbv zeta in H1, H2. rewrite H1, H2. cbn [StatsPageEarlier.todayCount
    StatsPageEarlier.weekCount StatsPageEarlier.emptyTally].
  unfold visitsSince.
  rewrite <- !filter_length_map.
  split; cbn [Nat.add]; f_equal;
    try (apply filter_ext; intros log; apply date_ge_valid).
Qed.

(** ** The time windows *)

Lemma easternHost_offsets : offsetsWithinADay JSDate.easternHost.
Proof.
  intros t isUTC. cbn. unfold JSDate.easternOffset, JSDate.msPerDay.
  destruct (_ && _); lia.
Qed.

Lemma fixedOffsetHost_offsets (offset : Z) :
  (Z.abs offset <= JSDate.msPerDay)%Z ->
  offsetsWithinADay (JSDate.fixedOffsetHost offset).
Proof. intros H t isUTC. exact H. Qed.

Lemma noonAfterDst_in_range : clockInRange noonAfterDst.
Proof.
  unfold clockInRange, noonAfterDst, JSDate.maxTimeValue, JSDate.msPerDay. lia.
Qed.




(** A later boundary admits fewer timestamps. *)
Lemma visitsSince_antitone (rt : JSDate.Runtime) (later earlier : Z)
  (timestamps : list string) :
  (earlier <= later)%Z ->
  visitsSince rt later timestamps <= visitsSince rt earlier timestamps.
Proof.
  intros Hle. unfold visitsSince. apply filter_length_mono.
  intros ts. unfold timestampAtOrAfter.
  destruct (JSDate.newDateOfString rt ts) as [t|]; [|discriminate].
  intros H. apply Z.leb_le in H. apply Z.leb_le. lia.
Qed.

Lemma visitsSince_bound (rt : JSDate.Runtime) (bound : Z)
  (timestamps : list string) :
  visitsSince rt bound timestamps <= length timestamps.
Proof. unfold visitsSince. apply filter_length_bound. Qed.

(** C9. On a host whose offsets stay within a day and for a clock in range,
    for every list of records, [todayVisits <= lastWeekVisits <=
    totalVisits], in both listings: a record counted for today is counted
    for the last seven days, and every counted record is in the log. *)
Theorem windows_are_nested (rt : JSDate.Runtime) (now : Z)
  (logs : list StatsPage.VisitorLog)
  (earlierLogs : list StatsPageEarlier.VisitorLog) :
  offsetsWithinADay rt -> clockInRange now ->
  (StatsPage.todayVisits (StatsPage.calculateStats rt now logs)
   <= StatsPage.lastWeekVisits (StatsPage.calculateStats rt now logs)
   <= StatsPage.totalVisits (StatsPage.calculateStats rt now logs))
  /\ (StatsPageEarlier.todayVisits
        (StatsPageEarlier.calculateStats rt now earlierLogs)
      <= StatsPageEarlier.lastWeekVisits
           (StatsPageEarlier.calculateStats rt now earlierLogs)
      <= StatsPageEarlier.totalVisits
           (StatsPageEarlier.calculateStats rt now earlierLogs)).
Proof.
  intros Hhost Hnow.
  destruct (StatsPage_counts rt now logs Hhost Hnow) as [Ht Hw].
  destruct (StatsPageEarlier_counts rt now earlierLogs Hhost Hnow)
    as [Ht' Hw'].
  rewrite Ht, Hw, Ht', Hw'.
  cbn [StatsPage.totalVisits StatsPage.calculateStats
       StatsPageEarlier.totalVisits StatsPageEarlier.calculateStats].
  pose proof (sevenCalendarDaysBefore_near rt Hhost
                (JSDate.localMidnight rt now)) as Hnear.
  repeat split.
  - apply visitsSince_antitone. unfold JSDate.msPerDay in Hnear. lia.
  - rewrite <- (length_map StatsPage.timestamp logs).
    apply visitsSince_bound.
  - apply visitsSince_antitone. lia.
  - rewrite <- (length_map StatsPageEarlier.timestamp earlierLogs).
    apply visitsSince_bound.
Qed.

Lemma windows_are_nested_witness :
  offsetsWithinADay JSDate.easternHost
  /\ clockInRange noonAfterDst
  /\ StatsPageEarlier.todayVisits
       (StatsPageEarlier.calculateStats JSDate.easternHost noonAfterDst
          [earlierVisit])
     <= StatsPageEarlier.lastWeekVisits
          (StatsPageEarlier.calculateStats JSDate.easternHost noonAfterDst
             [earlierVisit])
     <= StatsPageEarlier.totalVisits
          (StatsPageEarlier.calculateStats JSDate.easternHost noonAfterDst
             [earlierVisit]).
Proof.
  split; [exact easternHost_offsets|].
  split; [exact noonAfterDst_in_range|].
  exact (proj2 (windows_are_nested JSDate.easternHost noonAfterDst
                  [visitBeforeDst] [earlierVisit]
                  easternHost_offsets noonAfterDst_in_range)).
Defined.

(** ** What the groupings hold *)

Lemma occurrences_cons (key a : string) (keys : list string) :
  occurrences key (a :: keys)
  = (if String.eqb key a then 1 else 0) + occurrences key keys.
Proof. unfold occurrences. cbn. destruct (String.eqb key a); reflexivity. Qed.

Lemma occurrences_bound (key : string) (keys : list string) :
  occurrences key keys <= length keys.
Proof. unfold occurrences. apply filter_length_bound. Qed.



(** Incrementing along a list of keys: what the grouping holds under a key
    goes by the number of times the key occurs. *)
Lemma own_fold_increment (keys : list string) (counts : Stats.Counters)
  (key : string) (n : nat) :
  JSObject.own counts key = counterAfter key n ->
  JSObject.own (fold_left Stats.increment keys counts) key
  = counterAfter key (n + occurrences key keys).
Proof.
  revert counts n. induction keys as [|a keys IH]; intros counts n Hown.
  - cbn. now rewrite Nat.add_0_r.
  - cbn [fold_left]. rewrite occurrences_cons.
    destruct (String.eqb_spec key a) as [<-|Hne].
    + rewrite (IH _ (S n)) by now apply own_increment.
      f_equal. lia.
    + rewrite (IH _ n); [reflexivity|].
      rewrite own_increment_other by congruence. exact Hown.
Qed.

Lemma own_fold_increment_empty (keys : list string) (key : string) :
  JSObject.own (fold_left Stats.increment keys JSObject.empty) key
  = counterAfter key (occurrences key keys).
Proof. exact (own_fold_increment keys JSObject.empty key 0 eq_refl). Qed.



(** The groupings of each listing are [increment] folded over the column. *)
Lemma StatsPage_groupings (rt : JSDate.Runtime) (today weekAgo : JSDate.Date)
  (logs : list StatsPage.VisitorLog) (acc : StatsPage.Tally) :
  let r := fold_left (StatsPage.visit rt today weekAgo) logs acc in
  StatsPage.tally_browsers r
  = fold_left Stats.increment (List.map StatsPage.browser logs)
      (StatsPage.tally_browsers acc)
  /\ StatsPage.tally_operatingSystems r
     = fold_left Stats.increment (List.map StatsPage.os logs)
         (StatsPage.tally_operatingSystems acc)
  /\ StatsPage.tally_deviceTypes r
     = fold_left Stats.increment (List.map StatsPage.device_type logs)
         (StatsPage.tally_deviceTypes acc)
  /\ StatsPage.tally_timeZones r
     = fold_left Stats.increment (List.map StatsPage.time_zone logs)
         (StatsPage.tally_timeZones acc).
Proof.
  revert acc. induction logs as [|log logs IH]; intros acc.
  - cbn. auto.
  - cbn [fold_left List.map]. apply IH.
Qed.

Lemma StatsPageEarlier_groupings (rt : JSDate.Runtime)
  (today lastWeek : JSDate.Date)
  (logs : list StatsPageEarlier.VisitorLog) (acc : StatsPageEarlier.Tally) :
  let r := fold_left (StatsPageEarlier.visit rt today lastWeek) logs acc in
  StatsPageEarlier.tally_browsers r
  = fold_left Stats.increment (List.map StatsPageEarlier.browser logs)
      (StatsPageEarlier.tally_browsers acc)
  /\ StatsPageEarlier.tally_operatingSystems r
     = fold_left Stats.increment (List.map StatsPageEarlier.os logs)
         (StatsPageEarlier.tally_operatingSystems acc).
Proof.
  revert acc. induction logs as [|log logs IH]; intros acc.
  - cbn. auto.
  - cbn [fold_left List.map]. apply IH.
Qed.

Lemma StatsPageFirst_groupings
  (logs : list StatsPageFirst.VisitorLog) (acc : StatsPageFirst.Tally) :
  let r := fold_left StatsPageFirst.visit logs acc in
  StatsPageFirst.tally_browsers r
  = fold_left Stats.increment (List.map StatsPageFirst.browser logs)
      (StatsPageFirst.tally_browsers acc)
  /\ StatsPageFirst.tally_operatingSystems r
     = fold_left Stats.increment (List.map StatsPageFirst.os logs)
         (StatsPageFirst.tally_operatingSystems acc).
Proof.
  revert acc. induction logs as [|log logs IH]; intros acc.
  - cbn. auto.
  - cbn [fold_left List.map]. apply IH.
Qed.

(** ** The aggregate of particular logs *)

(** C2. For the empty log the aggregate has [totalVisits = 0], empty
    browser and operating-system groupings, [todayVisits = 0] and
    [lastWeekVisits = 0], in both listings; and [getPercentChange] answers
    the number 0 whenever [total] is 0, without dividing, so every
    percentage shown for the empty log is 0. *)
Theorem empty_log_aggregate (rt : JSDate.Runtime) (now : Z) (current : nat) :
  let s := StatsPage.calculateStats rt now [] in
  let s' := StatsPageEarlier.calculateStats rt now [] in
  (StatsPage.totalVisits s = 0
   /\ StatsPage.browsers s = JSObject.empty
   /\ StatsPage.operatingSystems s = JSObject.empty
   /\ StatsPage.todayVisits s = 0
   /\ StatsPage.lastWeekVisits s = 0)
  /\ (StatsPageEarlier.totalVisits s' = 0
      /\ StatsPageEarlier.browsers s' = JSObject.empty
      /\ StatsPageEarlier.operatingSystems s' = JSObject.empty
      /\ StatsPageEarlier.todayVisits s' = 0
      /\ StatsPageEarlier.lastWeekVisits s' = 0)
  /\ Stats.getPercentChange current 0 = Stats.JSNumber 0%float
  /\ Stats.getPercentChange (StatsPage.todayVisits s) (StatsPage.totalVisits s)
     = Stats.JSNumber 0%float
  /\ Stats.getPercentChange (StatsPage.lastWeekVisits s)
       (StatsPage.totalVisits s)
     = Stats.JSNumber 0%float.
Proof. cbv zeta. repeat split. Qed.

(** C7. For a log that holds exactly one record with [os = "Linux"] and
    [browser = "Chrome"], whatever its timestamp and other fields and
    whatever the observation instant, the aggregate has
    [browsers["Chrome"] = 1], [operatingSystems["Linux"] = 1] and
    [totalVisits = 1], in both listings. *)
Theorem single_record_aggregate (rt : JSDate.Runtime) (now : Z)
  (id : Z) (ip T device_type device_model time_zone : string) :
  let s :=
    StatsPage.calculateStats rt now
      [{| StatsPage.id := id; StatsPage.ip := ip; StatsPage.timestamp := T;
          StatsPage.os := "Linux"; StatsPage.browser := "Chrome";
          StatsPage.device_type := device_type;
          StatsPage.device_model := device_model;
          StatsPage.time_zone := time_zone |}] in
  let s' :=
    StatsPageEarlier.calculateStats rt now
      [{| StatsPageEarlier.id := id; StatsPageEarlier.ip := ip;
          StatsPageEarlier.timestamp := T;
          StatsPageEarlier.os := "Linux";
          StatsPageEarlier.browser := "Chrome" |}] in
  (JSObject.get (StatsPage.browsers s) "Chrome"
   = JSObject.OwnValue (Stats.Number 1)
   /\ JSObject.get (StatsPage.operatingSystems s) "Linux"
      = JSObject.OwnValue (Stats.Number 1)
   /\ StatsPage.totalVisits s = 1)
  /\ (JSObject.get (StatsPageEarlier.browsers s') "Chrome"
      = JSObject.OwnValue (Stats.Number 1)
      /\ JSObject.get (StatsPageEarlier.operatingSystems s') "Linux"
         = JSObject.OwnValue (Stats.Number 1)
      /\ StatsPageEarlier.totalVisits s' = 1).
Proof. cbv zeta. repeat split. Qed.


(** A row whose browser column names a function of [Object.prototype]
    leaves a text under that key, not a number: the grouping has no sum. *)
Example constructor_key_holds_a_text :
  let s := StatsPage.calculateStats JSDate.utcHost noonAfterDst
             [rowNamed "constructor"; visitAfterDst; rowNamed "constructor"] in
  JSObject.entries (StatsPage.browsers s)
  = [("constructor", Stats.FunctionSource "constructor" "11");
     ("Safari", Stats.Number 1)]
  /\ sumCounts (StatsPage.browsers s) = None
  /\ sumCounts (StatsPage.operatingSystems s) = Some 3
  /\ StatsPage.totalVisits s = 3.
Proof. cbv zeta. repeat split. Qed.



(** ** Loading twice *)

(** A successful [fetchLogs] replaces the aggregate by
    [calculateStats] of the rows it read; a failed one leaves the
    aggregate as it was. Either way it returns normally with [loading]
    down. *)
Lemma StatsPage_fetchLogs_stats (rt : JSDate.Runtime) (now : Z)
  (q : Stats.QueryOutcome StatsPage.VisitorLog) (st : StatsPage.PageState) :
  let r := StatsPage.fetchLogs rt now q st in
  fst r = Eff.Returns tt
  /\ StatsPage.loading (snd r) = false
  /\ StatsPage.stats (snd r)
     = match q with
       | Stats.QueryAnswers data None =>
           StatsPage.calculateStats rt now (default [] data)
       | _ => StatsPage.stats st
       end.
Proof.
  cbv zeta. destruct q as [e|data [error|]]; cbn; auto.
Qed.

Lemma StatsPageEarlier_fetchLogs_stats (rt : JSDate.Runtime) (now : Z)
  (q : Stats.QueryOutcome StatsPageEarlier.VisitorLog)
  (st : StatsPageEarlier.PageState) :
  let r := StatsPageEarlier.fetchLogs rt now q st in
  fst r = Eff.Returns tt
  /\ StatsPageEarlier.loading (snd r) = false
  /\ StatsPageEarlier.stats (snd r)
     = match q with
       | Stats.QueryAnswers data None =>
           StatsPageEarlier.calculateStats rt now (default [] data)
       | _ => StatsPageEarlier.stats st
       end.
Proof.
  cbv zeta. destruct q as [e|data [error|]]; cbn; auto.
Qed.

(** C6. Two [fetchLogs] in a row that read the same rows at the same
    observation instant leave the same aggregate (and the same loading
    flag) as one: the second load changes nothing. After a load that
    succeeded the aggregate is [calculateStats] of the rows and the instant
    alone; nothing of the earlier state of the page enters it. This holds in
    both listings. *)
Theorem fetchLogs_twice_same_aggregate (rt : JSDate.Runtime) (now : Z)
  (q : Stats.QueryOutcome StatsPage.VisitorLog)
  (q' : Stats.QueryOutcome StatsPageEarlier.VisitorLog)
  (st : StatsPage.PageState) (st' : StatsPageEarlier.PageState) :
  let once := snd (StatsPage.fetchLogs rt now q st) in
  let twice := snd (StatsPage.fetchLogs rt now q once) in
  let once' := snd (StatsPageEarlier.fetchLogs rt now q' st') in
  let twice' := snd (StatsPageEarlier.fetchLogs rt now q' once') in
  (StatsPage.stats twice = StatsPage.stats once
   /\ StatsPage.loading twice = StatsPage.loading once
   /\ forall rows,
        q = Stats.QueryAnswers (Some rows) None ->
        StatsPage.stats once = StatsPage.calculateStats rt now rows)
  /\ (StatsPageEarlier.stats twice' = StatsPageEarlier.stats once'
      /\ StatsPageEarlier.loading twice' = StatsPageEarlier.loading once'
      /\ forall rows,
           q' = Stats.QueryAnswers (Some rows) None ->
           StatsPageEarlier.stats once'
           = StatsPageEarlier.calculateStats rt now rows).
Proof.
  cbv zeta.
  pose proof (StatsPage_fetchLogs_stats rt now q st) as (_ & Hl1 & Hs1).
  pose proof (StatsPage_fetchLogs_stats rt now q
                (snd (StatsPage.fetchLogs rt now q st))) as (_ & Hl2 & Hs2).
  pose proof (StatsPageEarlier_fetchLogs_stats rt now q' st')
    as (_ & Hl1' & Hs1').
  pose proof (StatsPageEarlier_fetchLogs_stats rt now q'
                (snd (StatsPageEarlier.fetchLogs rt now q' st')))
    as (_ & Hl2' & Hs2').
  cbv zeta in *.
  split; (split; [|split]).
  - rewrite Hs2, Hs1. destruct q as [e|data [error|]]; reflexivity.
  - now rewrite Hl2, Hl1.
  - intros rows ->. exact Hs1.
  - rewrite Hs2', Hs1'. destruct q' as [e|data [error|]]; reflexivity.
  - now rewrite Hl2', Hl1'.
  - intros rows ->. exact Hs1'.
Qed.

(** * Further properties of the code *)

(** ** The recorder, call by call *)

Lemma app_one_neq {A : Type} (l : list A) (x : A) : (l ++ [x])%list <> l.
Proof.
  intros H. apply (f_equal (@length A)) in H.
  rewrite length_app in H. cbn in H. lia.
Qed.

Lemma detectBrowser_known (userAgent : string) :
  In (Recorder.detectBrowser userAgent) Recorder.browserVocabulary.
Proof.
  unfold Recorder.detectBrowser, Recorder.browserVocabulary.
  repeat (match goal with
          | |- context [JSString.includes userAgent ?p] =>
              destruct (JSString.includes userAgent p)
          end); cbn; tauto.
Qed.

Lemma detectOS_known (userAgent : string) :
  In (Recorder.detectOS userAgent) Recorder.osVocabulary.
Proof.
  unfold Recorder.detectOS, Recorder.osVocabulary.
  repeat (match goal with
          | |- context [JSString.includes userAgent ?p] =>
              destruct (JSString.includes userAgent p)
          end); cbn; tauto.
Qed.

(** X1. A call of [logVisitorInfo] whose address lookup fails (rejection or
    abort, bad status, unparsable or [null] body) issues no insert and takes
    no pause: it leaves the table as it was, writes exactly one line to the
    console, lowers the loading flag and returns normally. *)
Theorem failed_lookup_stores_nothing (env : Recorder.Env) (w : Recorder.World) :
  lookupFails env = true ->
  let r := Recorder.logVisitorInfo env false w in
  fst r = Eff.Returns tt
  /\ Recorder.visitor_logs (snd r) = Recorder.visitor_logs w
  /\ Recorder.inserts (snd r) = Recorder.inserts w
  /\ Recorder.pauses (snd r) = Recorder.pauses w
  /\ Recorder.isLoading (snd r) = false
  /\ exists entry,
       Recorder.console (snd r) = (Recorder.console w ++ [entry])%list.
Proof.
  intros Hfail. cbv zeta.
  destruct (logVisitorInfo_after_failed_lookup env w Hfail) as [entry ->].
  cbn. repeat split. now exists entry.
Qed.

Lemma failed_lookup_stores_nothing_witness :
  lookupFails lookupTimesOutEnv = true
  /\ Recorder.visitor_logs
       (snd (Recorder.logVisitorInfo lookupTimesOutEnv false
               Recorder.initialWorld))
     = [].
Proof.
  split; [reflexivity|].
  exact (proj1 (proj2 (failed_lookup_stores_nothing lookupTimesOutEnv
                         Recorder.initialWorld eq_refl))).
Defined.

(** X2. A call of [logVisitorInfo] whose address lookup succeeds offers the
    store one record: the address of the lookup, the clock in ISO form, and
    [detectOS] and [detectBrowser] of the user agent. It issues at least one
    and at most three inserts, and the table grows by exactly that record
    when one of the three is accepted and stays as it was otherwise. *)
Theorem successful_lookup_offers_one_record
  (env : Recorder.Env) (w : Recorder.World) :
  lookupFails env = false ->
  let r := snd (Recorder.logVisitorInfo env false w) in
  Recorder.inserts w < Recorder.inserts r <= Recorder.inserts w + 3
  /\ ((exists k, k < 3
         /\ Recorder.insertOutcome env (Recorder.inserts w + k)
            = Recorder.InsertAccepted) ->
      Recorder.visitor_logs r = (Recorder.visitor_logs w ++ [recordOf env])%list)
  /\ ((forall k, k < 3 ->
         Recorder.insertOutcome env (Recorder.inserts w + k)
         <> Recorder.InsertAccepted) ->
      Recorder.visitor_logs r = Recorder.visitor_logs w).
Proof.
  intros Hok. cbv zeta.
  rewrite (logVisitorInfo_after_lookup env w Hok).
  cbn [snd Recorder.inserts Recorder.visitor_logs afterRetries].
  pose proof (failuresFirst_bound env (Recorder.inserts w) 3) as Hb.
  pose proof (failuresFirst_stored env (Recorder.inserts w) 3) as Hs.
  destruct (failuresFirst env (Recorder.inserts w) 3 <? 3)%nat eqn:Hlt.
  - apply Nat.ltb_lt in Hlt. split; [lia|]. split; [reflexivity|].
    intros Hnone. destruct (proj1 Hs eq_refl) as (k & Hk & Ha).
    exfalso. exact (Hnone k Hk Ha).
  - split; [lia|]. split; [|reflexivity].
    intros Hsome. apply Hs in Hsome. discriminate.
Qed.

Lemma successful_lookup_offers_one_record_witness :
  lookupFails oneRefusalEnv = false
  /\ Recorder.visitor_logs
       (snd (Recorder.logVisitorInfo oneRefusalEnv false Recorder.initialWorld))
     = [recordOf oneRefusalEnv].
Proof.
  split; [reflexivity|].
  refine (proj1 (proj2 (successful_lookup_offers_one_record oneRefusalEnv
                          Recorder.initialWorld eq_refl)) _).
  exists 1. split; [lia | reflexivity].
Defined.

(** X3. The retry loop pays every failed insert with one pause of 1000 ms,
    the last one included: after the loop, the inserts issued are the
    pauses taken plus the rows stored. When no row was stored the loop has
    paused three times and written the failure line; when a row was stored
    it has written the success line. *)
Theorem every_failed_insert_is_followed_by_a_pause
  (env : Recorder.Env) (record : Recorder.VisitorLog) (w : Recorder.World) :
  let r := snd (Recorder.storeWithRetries env 3 record w) in
  Recorder.inserts r + Recorder.pauses w + length (Recorder.visitor_logs w)
  = Recorder.inserts w + Recorder.pauses r + length (Recorder.visitor_logs r)
  /\ (Recorder.visitor_logs r = Recorder.visitor_logs w
      /\ Recorder.pauses r = Recorder.pauses w + 3
      /\ Recorder.console r
         = (Recorder.console w ++
            [Eff.ConsoleError
               "Failed to store visitor info after all retries:"])%list
      \/ Recorder.visitor_logs r = (Recorder.visitor_logs w ++ [record])%list
         /\ Recorder.pauses r < Recorder.pauses w + 3
         /\ Recorder.console r
            = (Recorder.console w ++
               [Eff.ConsoleLog "Successfully logged visitor:"])%list).
Proof.
  cbv zeta. rewrite storeWithRetries_closed_form.
  cbn [snd Recorder.inserts Recorder.visitor_logs Recorder.pauses
       Recorder.console afterRetries].
  pose proof (failuresFirst_bound env (Recorder.inserts w) 3) as Hb.
  destruct (failuresFirst env (Recorder.inserts w) 3 <? 3)%nat eqn:Hlt.
  - apply Nat.ltb_lt in Hlt. split.
    + rewrite length_app. cbn. lia.
    + right. repeat split. lia.
  - apply Nat.ltb_ge in Hlt. split; [lia|].
    left. repeat split. lia.
Qed.

(** X4. Every record that the recorder adds to the table carries a browser
    and an operating system of the vocabulary: if all rows of the table do
    before a sequence of calls of [logVisitorInfo], all rows do after it,
    whatever the lookups and the store answer. *)
Theorem recorder_writes_only_the_vocabulary
  (calls : list (Recorder.Env * bool)) (w : Recorder.World) :
  Forall inVocabulary (Recorder.visitor_logs w) ->
  Forall inVocabulary (Recorder.visitor_logs (runCalls calls w)).
Proof.
  revert w. induction calls as [|[env seen] calls IH]; intros w Hw.
  - exact Hw.
  - cbn [runCalls fold_left fst snd]. apply IH.
    destruct seen; [exact Hw|].
    destruct (lookupFails env) eqn:Hlookup.
    + destruct (logVisitorInfo_after_failed_lookup env w Hlookup)
        as [entry ->]. exact Hw.
    + rewrite (logVisitorInfo_after_lookup env w Hlookup).
      cbn [snd Recorder.visitor_logs afterRetries].
      destruct (_ <? 3)%nat; [|exact Hw].
      apply Forall_app. split; [exact Hw|].
      constructor; [|constructor].
      split; [apply detectBrowser_known | apply detectOS_known].
Qed.

Lemma recorder_writes_only_the_vocabulary_witness :
  Forall inVocabulary (Recorder.visitor_logs Recorder.initialWorld)
  /\ Forall inVocabulary
       (Recorder.visitor_logs
          (runCalls [(oneRefusalEnv, false); (lookupTimesOutEnv, false);
                     (threeRefusalsEnv, false)]
             Recorder.initialWorld)).
Proof.
  assert (Forall inVocabulary (Recorder.visitor_logs Recorder.initialWorld))
    as H by constructor.
  split; [exact H|].
  exact (recorder_writes_only_the_vocabulary _ Recorder.initialWorld H).
Defined.

(** ** Classification: the first match wins *)

Ltac split_rules H :=
  repeat (match type of H with
          | _ = (?before ++ _ :: _)%list =>
              destruct before as [|? before]; cbn in H;
              [injection H as <- <- <-; clear | injection H as <- H]
          | [] = (?before ++ _ :: _)%list =>
              destruct before; discriminate H
          end).

Ltac decide_includes userAgent :=
  unfold noneMatches;
  rewrite ?Forall_cons, ?Forall_nil; cbn [fst];
  rewrite <- ?includes_true_iff;
  repeat (match goal with
          | |- context [JSString.includes userAgent ?p] =>
              destruct (JSString.includes userAgent p)
          end);
  intuition (try discriminate; try congruence).

(** X5. [detectBrowser] and [detectOS] answer by the first rule of their
    list whose substring the user agent contains: the answer is that of a
    rule exactly when the user agent contains the rule's substring and the
    substring of no earlier rule; it is "Unknown" exactly when it contains
    none of the substrings. The search is case-sensitive substring search,
    not a parse of the user agent. *)
Theorem first_matching_rule_decides (userAgent : string) :
  (forall before pattern answer after,
     browserRules = (before ++ (pattern, answer) :: after)%list ->
     (Recorder.detectBrowser userAgent = answer
      <-> contains userAgent pattern /\ noneMatches userAgent before))
  /\ (forall before pattern answer after,
        osRules = (before ++ (pattern, answer) :: after)%list ->
        (Recorder.detectOS userAgent = answer
         <-> contains userAgent pattern /\ noneMatches userAgent before))
  /\ (Recorder.detectBrowser userAgent = "Unknown"
      <-> noneMatches userAgent browserRules)
  /\ (Recorder.detectOS userAgent = "Unknown"
      <-> noneMatches userAgent osRules).
Proof.
  split; [|split; [|split]].
  - intros before pattern answer after H. unfold browserRules in H.
    unfold Recorder.detectBrowser.
    split_rules H; decide_includes userAgent.
  - intros before pattern answer after H. unfold osRules in H.
    unfold Recorder.detectOS.
    split_rules H; decide_includes userAgent.
  - unfold browserRules, Recorder.detectBrowser. decide_includes userAgent.
  - unfold osRules, Recorder.detectOS. decide_includes userAgent.
Qed.

(** X6. Rules shadowed by earlier ones. A user agent that contains "Linux"
    is never classified as Android and one that contains "Mac" never as
    iOS; a user agent that contains "Chrome" is never classified as Safari,
    Edge or Opera, and one that contains "Safari" never as Edge or Opera.
    (Android browsers send "Linux", iPhones send "like Mac OS X", and Edge
    and Opera send "Chrome" and "Safari".) *)
Theorem earlier_rules_shadow_later_ones (userAgent : string) :
  (contains userAgent "Linux" -> Recorder.detectOS userAgent <> "Android")
  /\ (contains userAgent "Mac" -> Recorder.detectOS userAgent <> "iOS")
  /\ (contains userAgent "Chrome" ->
      Recorder.detectBrowser userAgent = "Firefox"
      \/ Recorder.detectBrowser userAgent = "Chrome")
  /\ (contains userAgent "Safari" ->
      Recorder.detectBrowser userAgent <> "Edge"
      /\ Recorder.detectBrowser userAgent <> "Opera").
Proof.
  unfold Recorder.detectOS, Recorder.detectBrowser.
  rewrite <- !includes_true_iff.
  repeat (match goal with
          | |- context [JSString.includes userAgent ?p] =>
              destruct (JSString.includes userAgent p)
          end);
  intuition (try discriminate; try congruence).
Qed.

Example android_phone_is_linux :
  Recorder.detectOS
    "Mozilla/5.0 (Linux; Android 14; Pixel 8) AppleWebKit/537.36 (KHTML, like Gecko) Chrome/120.0.0.0 Mobile Safari/537.36"
  = "Linux".
Proof. reflexivity. Qed.

Example iphone_is_macOS :
  Recorder.detectOS
    "Mozilla/5.0 (iPhone; CPU iPhone OS 17_2 like Mac OS X) AppleWebKit/605.1.15 (KHTML, like Gecko) Version/17.2 Mobile/15E148 Safari/604.1"
  = "macOS".
Proof. reflexivity. Qed.

Example edge_is_chrome :
  Recorder.detectBrowser
    "Mozilla/5.0 (Windows NT 10.0; Win64; x64) AppleWebKit/537.36 (KHTML, like Gecko) Chrome/120.0.0.0 Safari/537.36 Edg/120.0.0.0"
  = "Chrome".
Proof. reflexivity. Qed.

(** ** Groupings count occurrences *)

(** X7. In every listing of the statistics page, what a grouping holds
    under a key goes by the number of rows that carry the key in the
    grouped column. A key that no row carries has no property (it is
    absent, not 0). Under a key that [Object.prototype] does not hold, the
    property is that number. Under a key that names a function of
    [Object.prototype] it is a text, the source of that function followed
    by one 1 for each row; under [__proto__] there is never a property. *)
Theorem groupings_count_occurrences (rt : JSDate.Runtime) (now : Z)
  (logs : list StatsPage.VisitorLog)
  (earlierLogs : list StatsPageEarlier.VisitorLog)
  (firstLogs : list StatsPageFirst.VisitorLog) (key : string) :
  let s := StatsPage.calculateStats rt now logs in
  let s' := StatsPageEarlier.calculateStats rt now earlierLogs in
  let s'' := StatsPageFirst.calculateStats firstLogs in
  (JSObject.own (StatsPage.browsers s) key
   = counterAfter key (occurrences key (List.map StatsPage.browser logs))
   /\ JSObject.own (StatsPage.operatingSystems s) key
      = counterAfter key (occurrences key (List.map StatsPage.os logs))
   /\ JSObject.own (StatsPage.deviceTypes s) key
      = counterAfter key (occurrences key (List.map StatsPage.device_type logs))
   /\ JSObject.own (StatsPage.timeZones s) key
      = counterAfter key (occurrences key (List.map StatsPage.time_zone logs)))
  /\ (JSObject.own (StatsPageEarlier.browsers s') key
      = counterAfter key
          (occurrences key (List.map StatsPageEarlier.browser earlierLogs))
      /\ JSObject.own (StatsPageEarlier.operatingSystems s') key
         = counterAfter key
             (occurrences key (List.map StatsPageEarlier.os earlierLogs)))
  /\ (JSObject.own (StatsPageFirst.browsers s'') key
      = counterAfter key
          (occurrences key (List.map StatsPageFirst.browser firstLogs))
      /\ JSObject.own (StatsPageFirst.operatingSystems s'') key
         = counterAfter key
             (occurrences key (List.map StatsPageFirst.os firstLogs))).
Proof.
  cbv zeta.
  unfold StatsPage.calculateStats, StatsPageEarlier.calculateStats,
    StatsPageFirst.calculateStats. cbv zeta.
  cbn [StatsPage.browsers StatsPage.operatingSystems StatsPage.deviceTypes
       StatsPage.timeZones StatsPageEarlier.browsers
       StatsPageEarlier.operatingSystems StatsPageFirst.browsers
       StatsPageFirst.operatingSystems].
  destruct (StatsPage_groupings rt (StatsPage.todayOf rt now)
              (StatsPage.weekAgoOf rt (StatsPage.todayOf rt now))
              logs StatsPage.emptyTally) as (-> & -> & -> & ->).
  destruct (StatsPageEarlier_groupings rt (StatsPageEarlier.todayOf rt now)
              (StatsPageEarlier.lastWeekOf (StatsPageEarlier.todayOf rt now))
              earlierLogs StatsPageEarlier.emptyTally) as (-> & ->).
  destruct (StatsPageFirst_groupings firstLogs StatsPageFirst.emptyTally)
    as (-> & ->).
  cbn [StatsPage.emptyTally StatsPage.tally_browsers
       StatsPage.tally_operatingSystems StatsPage.tally_deviceTypes
       StatsPage.tally_timeZones StatsPageEarlier.emptyTally
       StatsPageEarlier.tally_browsers StatsPageEarlier.tally_operatingSystems
       StatsPageFirst.emptyTally StatsPageFirst.tally_browsers
       StatsPageFirst.tally_operatingSystems].
  rewrite !own_fold_increment_empty. repeat split.
Qed.

(** The four groupings of the latest listing, each by its column. *)
Lemma StatsPage_own (rt : JSDate.Runtime) (now : Z)
  (logs : list StatsPage.VisitorLog) (key : string) :
  let s := StatsPage.calculateStats rt now logs in
  JSObject.own (StatsPage.browsers s) key
  = counterAfter key (occurrences key (List.map StatsPage.browser logs))
  /\ JSObject.own (StatsPage.operatingSystems s) key
     = counterAfter key (occurrences key (List.map StatsPage.os logs))
  /\ JSObject.own (StatsPage.deviceTypes s) key
     = counterAfter key (occurrences key (List.map StatsPage.device_type logs))
  /\ JSObject.own (StatsPage.timeZones s) key
     = counterAfter key (occurrences key (List.map StatsPage.time_zone logs)).
Proof.
  cbv zeta. unfold StatsPage.calculateStats. cbv zeta.
  cbn [StatsPage.browsers StatsPage.operatingSystems StatsPage.deviceTypes
       StatsPage.timeZones].
  destruct (StatsPage_groupings rt (StatsPage.todayOf rt now)
              (StatsPage.weekAgoOf rt (StatsPage.todayOf rt now))
              logs StatsPage.emptyTally) as (-> & -> & -> & ->).
  cbn [StatsPage.emptyTally StatsPage.tally_browsers
       StatsPage.tally_operatingSystems StatsPage.tally_deviceTypes
       StatsPage.tally_timeZones].
  rewrite !own_fold_increment_empty. repeat split.
Qed.

(** A property that is there was made by a row; a number is the number of
    those rows, a text stands under a function of [Object.prototype]. *)
Lemma counterAfter_Some (key : string) (occurs : nat) (v : Stats.Value) :
  counterAfter key occurs = Some v ->
  1 <= occurs
  /\ match v with
     | Stats.Number n => n = occurs /\ ordinaryKey key
     | Stats.Str _ => False
     | Stats.FunctionSource f tail =>
         f = key /\ tail = ones occurs
         /\ JSObject.objectPrototype key = Some JSObject.BuiltinFunction
     end.
Proof.
  unfold counterAfter, ordinaryKey. destruct occurs as [|n]; [discriminate|].
  destruct (JSObject.objectPrototype key) as [[|]|]; intros [= <-];
    (split; [lia | auto]).
Qed.

(** X8. Whatever the latest listing holds in one of its four groupings,
    the log has rows ([totalVisits] is at least 1), so the bar widths
    [(count / totalVisits) * 100] of the device-type and time-zone cards
    never divide by zero. What is held is a number from 1 to [totalVisits],
    under a key that [Object.prototype] does not hold, and then the width
    is at most 100; or it is a text, under a key that names a function of
    [Object.prototype]. *)
Theorem counters_between_one_and_total (rt : JSDate.Runtime) (now : Z)
  (logs : list StatsPage.VisitorLog) (key : string) (held : Stats.Value) :
  let s := StatsPage.calculateStats rt now logs in
  JSObject.own (StatsPage.browsers s) key = Some held
  \/ JSObject.own (StatsPage.operatingSystems s) key = Some held
  \/ JSObject.own (StatsPage.deviceTypes s) key = Some held
  \/ JSObject.own (StatsPage.timeZones s) key = Some held ->
  1 <= StatsPage.totalVisits s
  /\ match held with
     | Stats.Number count =>
         1 <= count <= StatsPage.totalVisits s /\ ordinaryKey key
     | Stats.Str _ => False
     | Stats.FunctionSource f _ =>
         f = key
         /\ JSObject.objectPrototype key = Some JSObject.BuiltinFunction
     end.
Proof.
  cbv zeta. destruct (StatsPage_own rt now logs key) as (-> & -> & -> & ->).
  assert (StatsPage.totalVisits (StatsPage.calculateStats rt now logs)
          = length logs) as -> by reflexivity.
  assert (forall (column : StatsPage.VisitorLog -> string),
            occurrences key (List.map column logs) <= length logs) as Hbound
    by (intros column; rewrite <- (length_map column logs);
        apply occurrences_bound).
  intros [H|[H|[H|H]]]; apply counterAfter_Some in H as [Hpos Hheld];
    match goal with
    | _ : context [occurrences key (List.map ?column logs)] |- _ =>
        specialize (Hbound column)
    end;
    (split; [lia|]); destruct held as [count|text|f tail];
    try tauto; destruct Hheld as [-> Hkey]; (split; [lia | exact Hkey]).
Qed.

Lemma counters_between_one_and_total_witness :
  JSObject.own
    (StatsPage.deviceTypes
       (StatsPage.calculateStats JSDate.easternHost noonAfterDst
          [visitBeforeDst; visitAfterDst])) "Desktop"
  = Some (Stats.Number 2)
  /\ 1 <= 2
     <= StatsPage.totalVisits
          (StatsPage.calculateStats JSDate.easternHost noonAfterDst
             [visitBeforeDst; visitAfterDst]).
Proof.
  assert (JSObject.own
            (StatsPage.deviceTypes
               (StatsPage.calculateStats JSDate.easternHost noonAfterDst
                  [visitBeforeDst; visitAfterDst])) "Desktop"
          = Some (Stats.Number 2)) as H
    by (vm_compute; reflexivity).
  split; [exact H|].
  exact (proj1 (proj2 (counters_between_one_and_total JSDate.easternHost
                         noonAfterDst [visitBeforeDst; visitAfterDst]
                         "Desktop" (Stats.Number 2)
                         (or_intror (or_intror (or_introl H)))))).
Defined.



(** The same two rows in the two orders: the entries are the same, their
    order is that of the rows, and so is the order of the ranked list,
    whose counters tie. *)
Example row_order_orders_the_entries :
  JSObject.entries
    (StatsPage.browsers
       (StatsPage.calculateStats JSDate.easternHost noonAfterDst
          [visitBeforeDst; visitAfterDst]))
  = [("Firefox", Stats.Number 1); ("Safari", Stats.Number 1)]
  /\ JSObject.entries
       (StatsPage.browsers
          (StatsPage.calculateStats JSDate.easternHost noonAfterDst
             [visitAfterDst; visitBeforeDst]))
     = [("Safari", Stats.Number 1); ("Firefox", Stats.Number 1)]
  /\ StatsView.ranked [("Firefox", 1); ("Safari", 1)]
     = [("Firefox", 1); ("Safari", 1)]
  /\ StatsView.ranked [("Safari", 1); ("Firefox", 1)]
     = [("Safari", 1); ("Firefox", 1)].
Proof. repeat split. Qed.

Example arrayIndex_samples :
  JSObject.arrayIndex "0" = Some 0%Z
  /\ JSObject.arrayIndex "10" = Some 10%Z
  /\ JSObject.arrayIndex "010" = None
  /\ JSObject.arrayIndex "4294967294" = Some 4294967294%Z
  /\ JSObject.arrayIndex "4294967295" = None
  /\ JSObject.arrayIndex "-1" = None
  /\ JSObject.arrayIndex "UTC" = None.
Proof. repeat split. Qed.

(** Array indices are listed first, in ascending order, whatever the order
    of the rows. *)
Example array_indices_are_listed_first :
  JSObject.entries
    (fold_left Stats.increment ["UTC"; "10"; "9"; "UTC"; "010"; "9"]
       JSObject.empty)
  = [("9", Stats.Number 2); ("10", Stats.Number 1);
     ("UTC", Stats.Number 2); ("010", Stats.Number 1)].
Proof. reflexivity. Qed.

(** X20. A row whose timestamp does not parse to a valid date is counted in
    [totalVisits] and in the four groupings like any other row (under its
    key each grouping holds what it holds after one more row), and it is
    counted in neither time window: an invalid date compares false with
    every boundary. *)
Theorem unparsable_timestamp_is_in_no_window (rt : JSDate.Runtime) (now : Z)
  (row : StatsPage.VisitorLog) (logs : list StatsPage.VisitorLog) :
  JSDate.newDateOfString rt (StatsPage.timestamp row) = None ->
  let s := StatsPage.calculateStats rt now logs in
  let s' := StatsPage.calculateStats rt now (row :: logs) in
  StatsPage.totalVisits s' = S (StatsPage.totalVisits s)
  /\ (JSObject.own (StatsPage.browsers s') (StatsPage.browser row)
      = counterAfter (StatsPage.browser row)
          (S (occurrences (StatsPage.browser row)
                (List.map StatsPage.browser logs)))
      /\ JSObject.own (StatsPage.operatingSystems s') (StatsPage.os row)
         = counterAfter (StatsPage.os row)
             (S (occurrences (StatsPage.os row) (List.map StatsPage.os logs)))
      /\ JSObject.own (StatsPage.deviceTypes s') (StatsPage.device_type row)
         = counterAfter (StatsPage.device_type row)
             (S (occurrences (StatsPage.device_type row)
                   (List.map StatsPage.device_type logs)))
      /\ JSObject.own (StatsPage.timeZones s') (StatsPage.time_zone row)
         = counterAfter (StatsPage.time_zone row)
             (S (occurrences (StatsPage.time_zone row)
                   (List.map StatsPage.time_zone logs))))
  /\ StatsPage.todayVisits s' = StatsPage.todayVisits s
  /\ StatsPage.lastWeekVisits s' = StatsPage.lastWeekVisits s.
Proof.
  intros Hinvalid. cbv zeta.
  split; [reflexivity|]. split.
  - destruct (StatsPage_own rt now (row :: logs) (StatsPage.browser row))
      as (-> & _).
    destruct (StatsPage_own rt now (row :: logs) (StatsPage.os row))
      as (_ & -> & _).
    destruct (StatsPage_own rt now (row :: logs) (StatsPage.device_type row))
      as (_ & _ & -> & _).
    destruct (StatsPage_own rt now (row :: logs) (StatsPage.time_zone row))
      as (_ & _ & _ & ->).
    cbn [List.map]. rewrite !occurrences_cons, !String.eqb_refl.
    repeat split.
  - unfold StatsPage.calculateStats. cbv zeta.
    cbn [StatsPage.todayVisits StatsPage.lastWeekVisits].
    set (today := StatsPage.todayOf rt now).
    set (weekAgo := StatsPage.weekAgoOf rt today).
    destruct (StatsPage_loop rt today weekAgo (row :: logs)
                StatsPage.emptyTally) as (-> & ->).
    destruct (StatsPage_loop rt today weekAgo logs StatsPage.emptyTally)
      as (-> & ->).
    cbn [List.filter length]. rewrite Hinvalid. cbn [JSDate.date_ge].
    split; reflexivity.
Qed.

Lemma unparsable_timestamp_is_in_no_window_witness :
  JSDate.newDateOfString JSDate.easternHost "yesterday" = None
  /\ StatsPage.todayVisits
       (StatsPage.calculateStats JSDate.easternHost noonAfterDst
          [{| StatsPage.id := 3; StatsPage.ip := "203.0.113.7";
              StatsPage.timestamp := "yesterday";
              StatsPage.os := "Linux"; StatsPage.browser := "Firefox";
              StatsPage.device_type := "Desktop";
              StatsPage.device_model := "Unknown";
              StatsPage.time_zone := "UTC" |}; visitAfterDst])
     = StatsPage.todayVisits
         (StatsPage.calculateStats JSDate.easternHost noonAfterDst
            [visitAfterDst]).
Proof.
  split; [reflexivity|].
  exact (proj1 (proj2 (proj2
           (unparsable_timestamp_is_in_no_window JSDate.easternHost
              noonAfterDst
              {| StatsPage.id := 3; StatsPage.ip := "203.0.113.7";
                 StatsPage.timestamp := "yesterday";
                 StatsPage.os := "Linux"; StatsPage.browser := "Firefox";
                 StatsPage.device_type := "Desktop";
                 StatsPage.device_model := "Unknown";
                 StatsPage.time_zone := "UTC" |}
              [visitAfterDst] eq_refl)))).
Defined.

(** ** The page over its life *)

Lemma StatsPage_fetchLogs_console (rt : JSDate.Runtime) (now : Z)
  (q : Stats.QueryOutcome StatsPage.VisitorLog) (st : StatsPage.PageState) :
  length (StatsPage.console (snd (StatsPage.fetchLogs rt now q st)))
  = length (StatsPage.console st)
    + match rowsRead q with Some _ => 0 | None => 1 end.
Proof.
  destruct q as [e|data [error|]]; cbn; rewrite ?length_app; cbn; lia.
Qed.

(** X10. The statistics page always shows the aggregate of the last load
    that delivered rows, computed at the instant of that load: a load that
    fails (an [error] in the answer, or a thrown exception) leaves the
    aggregate as it was, writes one line to the console and is not retried.
    From the first completed load on, whatever its outcome, [loading] is
    false. *)
Theorem page_shows_the_last_successful_read (rt : JSDate.Runtime)
  (loads : list (Z * Stats.QueryOutcome StatsPage.VisitorLog))
  (st : StatsPage.PageState) :
  let st' := runLoads rt loads st in
  StatsPage.stats st'
  = match lastRead loads with
    | Some (now, rows) => StatsPage.calculateStats rt now rows
    | None => StatsPage.stats st
    end
  /\ StatsPage.loading st'
     = match loads with
       | [] => StatsPage.loading st
       | _ :: _ => false
       end
  /\ length (StatsPage.console st')
     = length (StatsPage.console st) + failedReads loads.
Proof.
  cbv zeta. revert st. induction loads as [|[now q] loads IH]; intros st.
  - cbn. auto.
  - cbn [runLoads fold_left fst snd].
    fold (runLoads rt loads (snd (StatsPage.fetchLogs rt now q st))).
    destruct (IH (snd (StatsPage.fetchLogs rt now q st))) as (Hs & Hl & Hc).
    pose proof (StatsPage_fetchLogs_stats rt now q st) as (_ & Hl1 & Hs1).
    pose proof (StatsPage_fetchLogs_console rt now q st) as Hc1.
    cbv zeta in Hl1, Hs1.
    split; [|split].
    + rewrite Hs. cbn [lastRead snd fst].
      destruct (lastRead loads) as [[now' rows']|]; [reflexivity|].
      rewrite Hs1. destruct q as [e|data [error|]]; reflexivity.
    + rewrite Hl. destruct loads; [exact Hl1 | reflexivity].
    + rewrite Hc, Hc1. unfold failedReads. cbn [List.filter snd].
      destruct (rowsRead q); cbn [length]; lia.
Qed.

(** ** The listings side by side *)

(** X11. The three listings of the statistics page agree on what they
    share. On the same rows (the later columns dropped) and at the same
    instant they compute the same [totalVisits], the same browser and
    operating-system groupings and the same recent visits, and the two
    listings with time windows compute the same [todayVisits]. *)
Theorem listings_agree_on_what_they_share (rt : JSDate.Runtime) (now : Z)
  (logs : list StatsPage.VisitorLog) :
  let s := StatsPage.calculateStats rt now logs in
  let s' := StatsPageEarlier.calculateStats rt now (List.map asEarlier logs) in
  let s'' :=
    StatsPageFirst.calculateStats (List.map asFirst (List.map asEarlier logs)) in
  (StatsPage.totalVisits s = StatsPageEarlier.totalVisits s'
   /\ StatsPage.browsers s = StatsPageEarlier.browsers s'
   /\ StatsPage.operatingSystems s = StatsPageEarlier.operatingSystems s'
   /\ List.map asEarlier (StatsPage.recentVisits s)
      = StatsPageEarlier.recentVisits s'
   /\ StatsPage.todayVisits s = StatsPageEarlier.todayVisits s')
  /\ (StatsPageEarlier.totalVisits s' = StatsPageFirst.totalVisits s''
      /\ StatsPageEarlier.browsers s' = StatsPageFirst.browsers s''
      /\ StatsPageEarlier.operatingSystems s'
         = StatsPageFirst.operatingSystems s''
      /\ List.map asFirst (StatsPageEarlier.recentVisits s')
         = StatsPageFirst.recentVisits s'').
Proof.
  cbv zeta.
  unfold StatsPage.calculateStats, StatsPageEarlier.calculateStats,
    StatsPageFirst.calculateStats. cbv zeta.
  cbn [StatsPage.totalVisits StatsPage.browsers StatsPage.operatingSystems
       StatsPage.recentVisits StatsPage.todayVisits
       StatsPageEarlier.totalVisits StatsPageEarlier.browsers
       StatsPageEarlier.operatingSystems StatsPageEarlier.recentVisits
       StatsPageEarlier.todayVisits
       StatsPageFirst.totalVisits StatsPageFirst.browsers
       StatsPageFirst.operatingSystems StatsPageFirst.recentVisits].
  destruct (StatsPage_groupings rt (StatsPage.todayOf rt now)
              (StatsPage.weekAgoOf rt (StatsPage.todayOf rt now))
              logs StatsPage.emptyTally) as (-> & -> & _).
  destruct (StatsPageEarlier_groupings rt (StatsPageEarlier.todayOf rt now)
              (StatsPageEarlier.lastWeekOf (StatsPageEarlier.todayOf rt now))
              (List.map asEarlier logs) StatsPageEarlier.emptyTally)
    as (-> & ->).
  destruct (StatsPageFirst_groupings
              (List.map asFirst (List.map asEarlier logs))
              StatsPageFirst.emptyTally) as (-> & ->).
  destruct (StatsPage_loop rt (StatsPage.todayOf rt now)
              (StatsPage.weekAgoOf rt (StatsPage.todayOf rt now))
              logs StatsPage.emptyTally) as (-> & _).
  destruct (StatsPageEarlier_loop rt (StatsPageEarlier.todayOf rt now)
              (StatsPageEarlier.lastWeekOf (StatsPageEarlier.todayOf rt now))
              (List.map asEarlier logs) StatsPageEarlier.emptyTally)
    as (-> & _).
  rewrite !length_map, !List.map_map, <- !firstn_map, !List.map_map.
  cbn [asEarlier asFirst StatsPageEarlier.browser StatsPageEarlier.os
       StatsPageFirst.browser StatsPageFirst.os
       StatsPage.emptyTally StatsPage.tally_browsers
       StatsPage.tally_operatingSystems StatsPage.todayCount
       StatsPageEarlier.emptyTally StatsPageEarlier.tally_browsers
       StatsPageEarlier.tally_operatingSystems StatsPageEarlier.todayCount
       StatsPageFirst.emptyTally StatsPageFirst.tally_browsers
       StatsPageFirst.tally_operatingSystems].
  repeat split.
  rewrite <- (filter_length_map asEarlier).
  unfold StatsPage.todayOf, StatsPageEarlier.todayOf. reflexivity.
Qed.

(** ** The ranked lists *)

Section Ranking.

Import StatsView.







End Ranking.



Example top_three_of_five :
  StatsView.topThree
    [("Firefox", 2); ("Chrome", 7); ("Safari", 2); ("Edge", 1); ("Opera", 3)]
  = [("Chrome", 7); ("Opera", 3); ("Firefox", 2)].
Proof. reflexivity. Qed.

(** ** The address route *)

(** X14. [GET] always answers with a non-empty [ip]. It is the
    [x-forwarded-for] header when that is present and not empty (verbatim,
    a list of addresses included), else the [x-real-ip] header when that is
    present and not empty, else "127.0.0.1": an empty header counts as a
    missing one. *)
Theorem route_answers_a_nonempty_ip (get : string -> option string) :
  (exists ip, IpRoute.GET get = Some ip /\ ip <> "")
  /\ (IpRoute.truthy (get "x-forwarded-for") = true ->
      IpRoute.GET get = get "x-forwarded-for")
  /\ (IpRoute.truthy (get "x-forwarded-for") = false ->
      IpRoute.truthy (get "x-real-ip") = true ->
      IpRoute.GET get = get "x-real-ip")
  /\ (IpRoute.truthy (get "x-forwarded-for") = false ->
      IpRoute.truthy (get "x-real-ip") = false ->
      IpRoute.GET get = Some "127.0.0.1").
Proof.
  assert (forall v, IpRoute.truthy v = true ->
                    exists ip, v = Some ip /\ ip <> "") as Hnonempty.
  { intros [ip|]; cbn; [|discriminate].
    destruct (String.eqb_spec ip ""); [discriminate|]. eauto. }
  unfold IpRoute.GET, IpRoute.or.
  destruct (IpRoute.truthy (get "x-forwarded-for")) eqn:Hf.
  - rewrite Hf. destruct (Hnonempty _ Hf) as (ip & Hip & Hne).
    repeat split; try discriminate. exists ip. now rewrite Hip.
  - destruct (IpRoute.truthy (get "x-real-ip")) eqn:Hr.
    + destruct (Hnonempty _ Hr) as (ip & Hip & Hne).
      repeat split; try discriminate. exists ip. now rewrite Hip.
    + repeat split; try discriminate. now exists "127.0.0.1".
Qed.

Example route_skips_an_empty_header :
  IpRoute.GET
    (fun name =>
       if String.eqb name "x-forwarded-for" then Some ""
       else if String.eqb name "x-real-ip" then Some "203.0.113.7"
       else None)
  = Some "203.0.113.7".
Proof. reflexivity. Qed.

(** ** The typewriter headline *)

Lemma substring0_prefix (s : string) (n : nat) :
  String.prefix (String.substring 0 n s) s = true.
Proof.
  revert n. induction s as [|c s IH]; intros [|n]; cbn; try reflexivity.
  destruct (ascii_dec c c) as [_|Hne]; [apply IH | contradiction].
Qed.

Lemma substring0_length (s : string) (n : nat) :
  String.length (String.substring 0 n s) = Nat.min n (String.length s).
Proof.
  revert n. induction s as [|c s IH]; intros [|n]; cbn; try reflexivity.
  now rewrite IH.
Qed.

Lemma substring0_all (s : string) :
  String.substring 0 (String.length s) s = s.
Proof. induction s as [|c s IH]; cbn; [reflexivity | now rewrite IH]. Qed.

Lemma interval_eq (i1 i2 : nat) (t1 t2 : string) (c1 c2 : bool) :
  i1 = i2 -> t1 = t2 -> c1 = c2 ->
  {| Typewriter.currentIndex := i1; Typewriter.text := t1;
     Typewriter.cleared := c1 |}
  = {| Typewriter.currentIndex := i2; Typewriter.text := t2;
       Typewriter.cleared := c2 |}.
Proof. intros. subst. reflexivity. Qed.

(** The interval of the second listing after [k] ticks. *)
Lemma ticks_closed_form (k : nat) :
  Nat.iter k Typewriter.tick Typewriter.mounted
  = {| Typewriter.currentIndex :=
         Nat.min k (S (String.length Typewriter.fullText));
       Typewriter.text :=
         Typewriter.slice0 Typewriter.fullText
           (Nat.pred (Nat.min k (S (String.length Typewriter.fullText))));
       Typewriter.cleared :=
         (S (S (String.length Typewriter.fullText)) <=? k)%nat |}.
Proof.
  induction k as [|k IH]; [reflexivity|].
  rewrite Nat.iter_succ, IH. unfold Typewriter.tick.
  cbn [Typewriter.cleared Typewriter.currentIndex Typewriter.text].
  generalize (String.length Typewriter.fullText) as len. intros len.
  destruct (Nat.leb_spec (S (S len)) k) as [Hdone|Hrun].
  - apply interval_eq; [lia | f_equal; lia |].
    symmetry. apply Nat.leb_le. lia.
  - destruct (Nat.leb_spec (Nat.min k (S len)) len) as [Hin|Hout].
    + apply interval_eq; [lia | f_equal; lia |].
      symmetry. apply Nat.leb_gt. lia.
    + apply interval_eq; [lia | f_equal; lia |].
      symmetry. apply Nat.leb_le. lia.
Qed.

(** X15. The typewriter of the second listing. After any number of ticks
    of its interval the headline is a prefix of the full text; the first
    tick shows the empty string and each later one adds a character, so the
    text is complete after [length + 1] ticks; the tick after that clears
    the interval, and from then on nothing changes. *)
Theorem typewriter_interval_completes (k : nat) :
  let st := Nat.iter k Typewriter.tick Typewriter.mounted in
  let len := String.length Typewriter.fullText in
  String.prefix (Typewriter.text st) Typewriter.fullText = true
  /\ String.length (Typewriter.text st) = Nat.min (Nat.pred k) len
  /\ (len + 1 <= k -> Typewriter.text st = Typewriter.fullText)
  /\ Typewriter.cleared st = (len + 2 <=? k)%nat
  /\ (len + 2 <= k -> Typewriter.tick st = st).
Proof.
  cbv zeta. rewrite ticks_closed_form.
  cbn [Typewriter.text Typewriter.cleared]. unfold Typewriter.slice0.
  split; [apply substring0_prefix|].
  split; [rewrite substring0_length; lia|].
  split; [|split].
  - intros Hk.
    replace (Nat.pred (Nat.min k (S (String.length Typewriter.fullText))))
      with (String.length Typewriter.fullText) by lia.
    apply substring0_all.
  - replace (String.length Typewriter.fullText + 2)
      with (S (S (String.length Typewriter.fullText))) by lia.
    reflexivity.
  - intros Hk. unfold Typewriter.tick. cbn [Typewriter.cleared].
    destruct (Nat.leb_spec (S (S (String.length Typewriter.fullText))) k);
      [reflexivity | lia].
Qed.

Example typewriter_interval_numbers :
  String.length Typewriter.fullText = 48
  /\ Typewriter.text (Nat.iter 1 Typewriter.tick Typewriter.mounted) = ""
  /\ Typewriter.text (Nat.iter 8 Typewriter.tick Typewriter.mounted)
     = "Driving"
  /\ Typewriter.text (Nat.iter 49 Typewriter.tick Typewriter.mounted)
     = Typewriter.fullText.
Proof. repeat split; vm_compute; reflexivity. Qed.

Lemma typing_eq (t1 t2 : string) (n1 n2 : nat) :
  t1 = t2 -> n1 = n2 ->
  {| Typewriter.typed := t1; Typewriter.sounds := n1 |}
  = {| Typewriter.typed := t2; Typewriter.sounds := n2 |}.
Proof. intros. subst. reflexivity. Qed.

(** The headline of the first listing after [k] turns of its effect. *)
Lemma turns_closed_form (k : nat) :
  Nat.iter k Typewriter.turn Typewriter.firstRender
  = {| Typewriter.typed :=
         Typewriter.slice0 Typewriter.fullText
           (Nat.min k (String.length Typewriter.fullText));
       Typewriter.sounds := Nat.min k (String.length Typewriter.fullText) |}.
Proof.
  induction k as [|k IH]; [reflexivity|].
  rewrite Nat.iter_succ, IH.
  unfold Typewriter.turn, Typewriter.armed, Typewriter.timeout.
  cbn [Typewriter.typed Typewriter.sounds]. unfold Typewriter.slice0.
  rewrite substring0_length.
  generalize (String.length Typewriter.fullText) as len. intros len.
  destruct (Nat.ltb_spec (Nat.min (Nat.min k len) len) len) as [Hlt|Hge].
  - apply typing_eq; [f_equal; lia | lia].
  - apply typing_eq; [f_equal; lia | lia].
Qed.

(** X16. The typewriter of the first listing. Each turn of its effect adds
    one character and plays one sound until the headline is complete; the
    headline is always a prefix of the full text, it is complete after
    exactly [length] turns, and from then on no timeout is armed, no sound
    is played and nothing changes. *)
Theorem typewriter_timeouts_complete (k : nat) :
  let st := Nat.iter k Typewriter.turn Typewriter.firstRender in
  let len := String.length Typewriter.fullText in
  String.prefix (Typewriter.typed st) Typewriter.fullText = true
  /\ String.length (Typewriter.typed st) = Nat.min k len
  /\ Typewriter.sounds st = Nat.min k len
  /\ Typewriter.armed st = (k <? len)%nat
  /\ (len <= k ->
      Typewriter.typed st = Typewriter.fullText
      /\ Typewriter.turn st = st).
Proof.
  cbv zeta. rewrite turns_closed_form.
  unfold Typewriter.turn, Typewriter.armed.
  cbn [Typewriter.typed Typewriter.sounds]. unfold Typewriter.slice0.
  rewrite substring0_length.
  split; [apply substring0_prefix|].
  split; [lia|]. split; [reflexivity|].
  assert ((Nat.min
             (Nat.min k (String.length Typewriter.fullText))
             (String.length Typewriter.fullText)
           <? String.length Typewriter.fullText)%nat
          = (k <? String.length Typewriter.fullText)%nat) as ->.
  { destruct (Nat.ltb_spec k (String.length Typewriter.fullText));
      [apply Nat.ltb_lt | apply Nat.ltb_ge]; lia. }
  split; [reflexivity|].
  intros Hk.
  replace (Nat.min k (String.length Typewriter.fullText))
    with (String.length Typewriter.fullText) by lia.
  split; [apply substring0_all|].
  destruct (Nat.ltb_spec k (String.length Typewriter.fullText));
    [lia | reflexivity].
Qed.

(** ** Expandable job sections *)

(** X17. [toggleJob] of the typed listing flips the section it names and no
    other; toggling the same section twice restores the state, and toggles
    of any two sections commute. *)
Theorem toggleJob_flips_one_section
  (jobKey other : JobSections.JobKey) (prev : JobSections.ExpandedJobs) :
  JobSections.expanded (JobSections.toggleJob jobKey prev) jobKey
  = negb (JobSections.expanded prev jobKey)
  /\ (jobKey <> other ->
      JobSections.expanded (JobSections.toggleJob jobKey prev) other
      = JobSections.expanded prev other)
  /\ JobSections.toggleJob jobKey (JobSections.toggleJob jobKey prev) = prev
  /\ JobSections.toggleJob jobKey (JobSections.toggleJob other prev)
     = JobSections.toggleJob other (JobSections.toggleJob jobKey prev).
Proof.
  destruct prev as [a b c d e].
  destruct jobKey, other; cbn; rewrite ?negb_involutive;
    repeat split; try reflexivity; intros H; congruence.
Qed.

(** X18. [toggleJob] of the string-keyed listings, for any string. It
    flips what the markup shows for the key it is given and leaves every
    other key as it was, and two toggles of one key show what was shown
    before. After a toggle the state holds the key, with the negation of
    what was shown: a key that the state did not hold is added as expanded,
    unless [Object.prototype] holds it; then [prev[jobKey]] was truthy and
    the key is added as collapsed. *)
Theorem toggleJobByName_flips_what_is_shown
  (jobKey other : string) (prev : JSObject.Properties bool) :
  JobSections.shown (JobSections.toggleJobByName jobKey prev) jobKey
  = negb (JobSections.shown prev jobKey)
  /\ (jobKey <> other ->
      JSObject.own (JobSections.toggleJobByName jobKey prev) other
      = JSObject.own prev other
      /\ JobSections.shown (JobSections.toggleJobByName jobKey prev) other
         = JobSections.shown prev other)
  /\ JobSections.shown
       (JobSections.toggleJobByName jobKey
          (JobSections.toggleJobByName jobKey prev)) other
     = JobSections.shown prev other
  /\ JSObject.own (JobSections.toggleJobByName jobKey prev) jobKey
     = Some (negb (JobSections.shown prev jobKey))
  /\ (JSObject.own prev jobKey = None ->
      JSObject.own (JobSections.toggleJobByName jobKey prev) jobKey
      = Some (match JSObject.objectPrototype jobKey with
              | Some _ => false
              | None => true
              end)).
Proof.
  assert (forall (key : string) (jobs : JSObject.Properties bool),
            JSObject.own (JobSections.toggleJobByName key jobs) key
            = Some (negb (JobSections.shown jobs key))) as Hown.
  { intros key jobs. unfold JobSections.toggleJobByName, JobSections.shown.
    now rewrite own_define, String.eqb_refl. }
  assert (forall (key : string) (jobs : JSObject.Properties bool),
            JobSections.shown (JobSections.toggleJobByName key jobs) key
            = negb (JobSections.shown jobs key)) as Hflip.
  { intros key jobs. unfold JobSections.shown at 1. unfold JSObject.get.
    now rewrite Hown. }
  assert (forall (key name : string) (jobs : JSObject.Properties bool),
            key <> name ->
            JSObject.own (JobSections.toggleJobByName key jobs) name
            = JSObject.own jobs name) as Hother.
  { intros key name jobs Hne. unfold JobSections.toggleJobByName.
    rewrite own_define.
    destruct (String.eqb_spec key name); [contradiction | reflexivity]. }
  split; [apply Hflip|]. split; [|split; [|split]].
  - intros Hne. split; [now apply Hother|].
    unfold JobSections.shown, JSObject.get. now rewrite Hother.
  - destruct (String.eqb_spec jobKey other) as [<-|Hne].
    + now rewrite !Hflip, negb_involutive.
    + unfold JobSections.shown, JSObject.get. now rewrite !Hother.
  - apply Hown.
  - intros Hnone. rewrite Hown. unfold JobSections.shown, JSObject.get.
    rewrite Hnone. destruct (JSObject.objectPrototype jobKey); reflexivity.
Qed.

(** A section key and a key of [Object.prototype], toggled from the state
    with which the component mounts. *)
Example toggle_by_name_samples :
  JobSections.toggleJobByName "axa" JobSections.allCollapsedByName
  = [("hafniaIT", false); ("hafniaFS", false); ("axa", true);
     ("worldKitchen", false); ("veolia", false)]
  /\ JobSections.shown JobSections.allCollapsedByName "constructor" = true
  /\ JobSections.toggleJobByName "constructor" JobSections.allCollapsedByName
     = [("hafniaIT", false); ("hafniaFS", false); ("axa", false);
        ("worldKitchen", false); ("veolia", false); ("constructor", false)]
  /\ JobSections.toggleJobByName "cv" JobSections.allCollapsedByName
     = [("hafniaIT", false); ("hafniaFS", false); ("axa", false);
        ("worldKitchen", false); ("veolia", false); ("cv", true)].
Proof. repeat split. Qed.

(** ** The effect that calls [logVisitorInfo] *)

Lemma setIsLoading_absorbed (env : Recorder.Env) (w : Recorder.World) :
  Recorder.logVisitorInfo env false (snd (Recorder.setIsLoading true w))
  = Recorder.logVisitorInfo env false w.
Proof. reflexivity. Qed.

Lemma logVisitorInfo_lowers (env : Recorder.Env) (w : Recorder.World) :
  Recorder.isLoading (snd (Recorder.logVisitorInfo env false w)) = false.
Proof.
  destruct (lookupFails env) eqn:Hlookup.
  - destruct (logVisitorInfo_after_failed_lookup env w Hlookup) as [e ->].
    reflexivity.
  - now rewrite (logVisitorInfo_after_lookup env w Hlookup).
Qed.

(** A render with the flag down and a new [logVisitorInfo] starts a
    call. *)
Lemma render_starts_a_call (p : CvPage.Page) (env : Recorder.Env) :
  Recorder.isLoading (CvPage.world p) = false ->
  CvPage.captured p <> Some false ->
  CvPage.render env p
  = {| CvPage.world := snd (Recorder.setIsLoading true (CvPage.world p));
       CvPage.captured := Some false;
       CvPage.inFlight := Some env |}.
Proof.
  intros Hflag Hcap. unfold CvPage.render. cbv zeta. rewrite Hflag.
  now rewrite bool_decide_eq_false_2 by exact Hcap.
Qed.

(** The render that the raised flag causes runs the effect, and the call
    returns at its guard. *)
Lemma render_stops_at_the_guard (p : CvPage.Page) (env : Recorder.Env) :
  Recorder.isLoading (CvPage.world p) = true ->
  CvPage.captured p = Some false ->
  CvPage.render env p
  = {| CvPage.world := CvPage.world p;
       CvPage.captured := Some true;
       CvPage.inFlight := CvPage.inFlight p |}.
Proof.
  intros Hflag Hcap. unfold CvPage.render. cbv zeta. rewrite Hflag, Hcap.
  now rewrite bool_decide_eq_false_2 by discriminate.
Qed.

Lemma round_runs_one_call (p : CvPage.Page) (env : Recorder.Env) :
  callEnded p ->
  CvPage.world (CvPage.round p env)
  = snd (Recorder.logVisitorInfo env false (CvPage.world p))
  /\ callEnded (CvPage.round p env).
Proof.
  intros (Hflag & Hcap & Hnone). unfold CvPage.round.
  rewrite (render_starts_a_call p env Hflag Hcap).
  rewrite render_stops_at_the_guard by reflexivity.
  unfold CvPage.complete. cbn [CvPage.inFlight CvPage.world CvPage.captured].
  rewrite setIsLoading_absorbed.
  split; [reflexivity|].
  split; [apply logVisitorInfo_lowers | split; [discriminate | reflexivity]].
Qed.

(** X19. The logging effect never comes to rest. On a mounted page, each
    call of [logVisitorInfo] that ends lowers [isLoading]; the render that
    follows gets a new [logVisitorInfo] and so runs the effect again, which
    starts the next call. After any number of rounds the page has run that
    many calls to their end, one after the other, and its next render
    starts a further one: a page that stays open keeps appending
    records. *)
Theorem logging_effect_runs_again_after_every_call
  (w : Recorder.World) (envs : list Recorder.Env) (next : Recorder.Env) :
  Recorder.isLoading w = false ->
  let p := fold_left CvPage.round envs (CvPage.mount w) in
  CvPage.world p = runCalls (List.map (fun env => (env, false)) envs) w
  /\ CvPage.inFlight (CvPage.render next p) = Some next.
Proof.
  intros Hflag. cbv zeta.
  assert (callEnded (CvPage.mount w)) as Hmount
    by (split; [exact Hflag | split; [discriminate | reflexivity]]).
  assert (forall p0 w0,
            callEnded p0 -> CvPage.world p0 = w0 ->
            CvPage.world (fold_left CvPage.round envs p0)
            = runCalls (List.map (fun env => (env, false)) envs) w0
            /\ callEnded (fold_left CvPage.round envs p0)) as Hrounds.
  { induction envs as [|env envs IH]; intros p0 w0 Hp0 Hw0.
    - cbn. auto.
    - cbn [fold_left List.map runCalls fst snd].
      destruct (round_runs_one_call p0 env Hp0) as [Hw1 Hp1].
      apply (IH _ _ Hp1). now rewrite Hw1, Hw0. }
  destruct (Hrounds (CvPage.mount w) w Hmount eq_refl) as [Hw (Hf & Hc & Hn)].
  split; [exact Hw|].
  unfold CvPage.render. cbv zeta. rewrite Hf.
  rewrite bool_decide_eq_false_2 by exact Hc. reflexivity.
Qed.

Lemma logging_effect_runs_again_after_every_call_witness :
  Recorder.isLoading Recorder.initialWorld = false
  /\ CvPage.inFlight
       (CvPage.render threeRefusalsEnv
          (fold_left CvPage.round [oneRefusalEnv; lookupTimesOutEnv]
             (CvPage.mount Recorder.initialWorld)))
     = Some threeRefusalsEnv.
Proof.
  split; [reflexivity|].
  exact (proj2 (logging_effect_runs_again_after_every_call
                  Recorder.initialWorld [oneRefusalEnv; lookupTimesOutEnv]
                  threeRefusalsEnv eq_refl)).
Defined.

Example three_rounds_three_records :
  length
    (Recorder.visitor_logs
       (CvPage.world
          (fold_left CvPage.round [oneRefusalEnv; oneRefusalEnv; oneRefusalEnv]
             (CvPage.mount Recorder.initialWorld))))
  = 3.
Proof. vm_compute. reflexivity. Qed.

(** ** The table only grows *)

Lemma logVisitorInfo_appends (env : Recorder.Env) (seen : bool)
  (w : Recorder.World) :
  exists added,
    Recorder.visitor_logs (snd (Recorder.logVisitorInfo env seen w))
    = (Recorder.visitor_logs w ++ added)%list
    /\ length added <= 1.
Proof.
  destruct seen.
  - exists []. cbn. rewrite app_nil_r. split; [reflexivity | lia].
  - destruct (lookupFails env) eqn:Hlookup.
    + destruct (logVisitorInfo_after_failed_lookup env w Hlookup) as [e ->].
      exists []. cbn. rewrite app_nil_r. split; [reflexivity | lia].
    + rewrite (logVisitorInfo_after_lookup env w Hlookup).
      cbn [snd Recorder.visitor_logs afterRetries].
      destruct (_ <? 3)%nat.
      * exists [recordOf env]. split; [reflexivity | cbn; lia].
      * exists []. rewrite app_nil_r. split; [reflexivity | cbn; lia].
Qed.

(** X21. The recorder only appends. Over any sequence of calls of
    [logVisitorInfo], the rows that the table held stay where they are,
    unchanged, and at most one row per call is added after them. *)
Theorem recorder_only_appends
  (calls : list (Recorder.Env * bool)) (w : Recorder.World) :
  exists added,
    Recorder.visitor_logs (runCalls calls w)
    = (Recorder.visitor_logs w ++ added)%list
    /\ length added <= length calls.
Proof.
  revert w. induction calls as [|[env seen] calls IH]; intros w.
  - exists []. cbn. rewrite app_nil_r. split; [reflexivity | lia].
  - cbn [runCalls fold_left fst snd].
    destruct (logVisitorInfo_appends env seen w) as (a1 & H1 & Hl1).
    destruct (IH (snd (Recorder.logVisitorInfo env seen w)))
      as (a2 & H2 & Hl2).
    exists (a1 ++ a2)%list. split.
    + unfold runCalls in H2. rewrite H2, H1. now rewrite app_assoc.
    + rewrite length_app. cbn [length]. lia.
Qed.
